(** * matmethods.vasp.firetasks.parse_outputs: VaspToDbTask and ToDbTask

    A shallow embedding of [src/matmethods/vasp/firetasks/parse_outputs.py]
    and the properties of its two [run_task] methods: resolution of the
    calculation directory, the GridFS blocks that move [dos] and
    [bandstructure] out of the task document, the choice between the
    [task.json] file and the database, and the [FWAction] that is returned.

    Python values are a small universe [pyval]; dictionaries are stdpp
    [gmap]s keyed by strings.  Exceptions are explicit ([result]), and the
    statements of [run_task] run in a state-and-exception monad [M] whose
    state holds the object bound to the local variable [task_doc] (it is
    mutated in place by the source, also by [db.insert]) and the trace of
    calls made to the outside world.

    The statements are embedded over values first: there the task
    document is a tree of values, which is what the code sees as long as
    the dictionary [task_doc["calcs_reversed"][0]] is reached along one
    path only.  Where a property turns on the identity of that dictionary,
    on what else has changed once it is changed in place, the GridFS blocks
    are embedded a second time, over a store of objects ([h_offload]).
    The entries of [fw_spec["calc_locs"]] are dictionaries with string
    values under [name] and [path], as the Firework that records them
    writes them. *)

From Stdlib Require Import ZArith String List.
From stdpp Require Import gmap strings list fin_maps.

Set Warnings "-register-all".
Local Open Scope string_scope.
Local Open Scope Z_scope.

(** ** Python values *)

(** [PObj cls attrs] is an instance of a user class named [cls] that
    defines none of the container or truth protocols (a drone instance). *)
Inductive pyval : Type :=
| PNone
| PBool (b : bool)
| PInt (n : Z)
| PStr (s : string)
| PList (l : list pyval)
| PDict (d : gmap string pyval)
| PObj (cls : string) (attrs : gmap string pyval).

(** The exceptions the module can raise by itself, and [External] for the
    ones raised inside a collaborator. *)
Inductive exn : Type :=
| KeyError (key : pyval)
| IndexError
| TypeError
| AttributeError
| External (origin : string) (msg : string).

Inductive result (A : Type) : Type :=
| Ok (a : A)
| Raise (e : exn).
Arguments Ok {A} a.
Arguments Raise {A} e.

#[global] Instance result_ret : MRet result := fun A a => Ok a.
#[global] Instance result_bind : MBind result := fun A B k r =>
  match r with
  | Ok a => k a
  | Raise e => Raise e
  end.

(** [bool(v)] *)
Definition truthy (v : pyval) : bool :=
  match v with
  | PNone => false
  | PBool b => b
  | PInt n => negb (n =? 0)
  | PStr s => negb (String.eqb s "")
  | PList l => negb (Nat.eqb (length l) 0)
  | PDict d => negb (Nat.eqb (size d) 0)
  | PObj _ _ => true
  end.

(** [isinstance(v, six.string_types)] *)
Definition is_string (v : pyval) : bool :=
  match v with
  | PStr _ => true
  | _ => false
  end.

(** [v == s] and [v != s] for a string literal [s]: only a string with
    the same characters is equal to a string. *)
Definition eq_str (v : pyval) (s : string) : bool :=
  match v with
  | PStr t => String.eqb t s
  | _ => false
  end.

Definition ne_str (v : pyval) (s : string) : bool := negb (eq_str v s).

(** [v.__class__.__name__] *)
Definition class_name (v : pyval) : string :=
  match v with
  | PNone => "NoneType"
  | PBool _ => "bool"
  | PInt _ => "int"
  | PStr _ => "str"
  | PList _ => "list"
  | PDict _ => "dict"
  | PObj cls _ => cls
  end.

(** [k in s] for two strings *)
Fixpoint is_substring (k s : string) : bool :=
  if String.prefix k s then true
  else match s with
       | EmptyString => false
       | String _ s' => is_substring k s'
       end.

(** [k in v] for a string [k] *)
Definition contains_str (k : string) (v : pyval) : result bool :=
  match v with
  | PDict d => Ok (match d !! k with Some _ => true | None => false end)
  | PList l => Ok (existsb (fun x => eq_str x k) l)
  | PStr s => Ok (is_substring k s)
  | PNone | PBool _ | PInt _ | PObj _ _ => Raise TypeError
  end.

(** [v[k]] for a string [k] *)
Definition getitem_str (v : pyval) (k : string) : result pyval :=
  match v with
  | PDict d =>
      match d !! k with
      | Some x => Ok x
      | None => Raise (KeyError (PStr k))
      end
  | _ => Raise TypeError
  end.

(** Position of index [i] in a sequence of length [n], Python style:
    negative indices count from the end. *)
Definition norm_index (n : nat) (i : Z) : option nat :=
  let j := if i <? 0 then i + Z.of_nat n else i in
  if (j <? 0) || (Z.of_nat n <=? j) then None else Some (Z.to_nat j).

(** [v[i]] for an integer [i] *)
Definition getitem_int (v : pyval) (i : Z) : result pyval :=
  match v with
  | PList l =>
      match norm_index (length l) i with
      | Some j => match l !! j with Some x => Ok x | None => Raise IndexError end
      | None => Raise IndexError
      end
  | PStr s =>
      match norm_index (String.length s) i with
      | Some j =>
          match String.get j s with
          | Some c => Ok (PStr (String c EmptyString))
          | None => Raise IndexError
          end
      | None => Raise IndexError
      end
  | PDict _ => Raise (KeyError (PInt i))
  | PNone | PBool _ | PInt _ | PObj _ _ => Raise TypeError
  end.

(** [v[k] = x] for a string [k]; the value returned is the object [v]
    after the assignment. *)
Definition setitem_str (k : string) (x : pyval) (v : pyval) : result pyval :=
  match v with
  | PDict d => Ok (PDict (<[k := x]> d))
  | _ => Raise TypeError
  end.

(** [del v[k]] for a string [k] *)
Definition delitem_str (k : string) (v : pyval) : result pyval :=
  match v with
  | PDict d =>
      match d !! k with
      | Some _ => Ok (PDict (delete k d))
      | None => Raise (KeyError (PStr k))
      end
  | _ => Raise TypeError
  end.

(** [v.get(k, dflt)] *)
Definition dict_get (v : pyval) (k : string) (dflt : pyval) : result pyval :=
  match v with
  | PDict d => Ok (default dflt (d !! k))
  | _ => Raise AttributeError
  end.

(** ** The firetask and the Firework spec *)

(** A firetask is a dictionary of its parameters ([FireTaskBase] is a
    [dict] subclass): [self.get(k)], [self.get(k, dflt)], [self[k]]. *)
Definition self_get (self : gmap string pyval) (k : string) : pyval :=
  default PNone (self !! k).

Definition self_get_default (self : gmap string pyval) (k : string) (dflt : pyval) : pyval :=
  default dflt (self !! k).

Definition self_getitem (self : gmap string pyval) (k : string) : result pyval :=
  match self !! k with
  | Some v => Ok v
  | None => Raise (KeyError (PStr k))
  end.

(** An entry of [fw_spec["calc_locs"]]. *)
Record LocationRecord : Type := { name : string; path : string }.

(** [fw_spec]: the [calc_locs] entry (absent when the key is) and the
    other keys, which only [env_chk] reads. *)
Record FwSpec : Type := {
  calc_locs : option (list LocationRecord);
  fw_other : gmap string pyval
}.

(** [fw_spec["calc_locs"]] *)
Definition fw_calc_locs (fw_spec : FwSpec) : result (list LocationRecord) :=
  match calc_locs fw_spec with
  | Some l => Ok l
  | None => Raise (KeyError (PStr "calc_locs"))
  end.

(** The body of [for doc in reversed(fw_spec["calc_locs"])], over the
    records still to visit; [calc_dir] is the value the variable has when
    the loop ends without a [break]. *)
Fixpoint scan_calc_locs (self : gmap string pyval) (docs : list LocationRecord)
    (calc_dir : pyval) : result pyval :=
  match docs with
  | [] => Ok calc_dir
  | doc :: docs' =>
      wanted ← self_getitem self "calc_loc_name";
      if eq_str wanted (name doc) then Ok (PStr (path doc))
      else scan_calc_locs self docs' calc_dir
  end.

(** [fw_spec["calc_locs"][-1]["path"]] *)
Definition last_calc_loc_path (fw_spec : FwSpec) : result pyval :=
  locs ← fw_calc_locs fw_spec;
  match norm_index (length locs) (-1) with
  | Some j => match locs !! j with
              | Some doc => Ok (PStr (path doc))
              | None => Raise IndexError
              end
  | None => Raise IndexError
  end.

(** Lines 55-65 and 137-147: the directory to parse.  [cwd] is
    [os.getcwd()]. *)
Definition get_calc_dir (cwd : string) (self : gmap string pyval) (fw_spec : FwSpec)
    : result pyval :=
  let calc_dir := PStr cwd in
  match self !! "calc_dir" with
  | Some p => Ok p
  | None =>
      if truthy (self_get self "calc_loc") then
        calc_loc ← self_getitem self "calc_loc";
        if is_string calc_loc then
          locs ← fw_calc_locs fw_spec;
          scan_calc_locs self (rev locs) calc_dir
        else last_calc_loc_path fw_spec
      else Ok calc_dir
  end.

(** ** The outside world *)

(** One entry per call that leaves the module, in the order the calls
    are made. *)
Inductive event : Type :=
| EvLog (template : string) (args : list pyval)
| EvNew (cls : string) (kwargs : list (string * pyval))
| EvAssimilate (drone calc_dir : pyval)
| EvOpen (fname mode : string)
| EvWrite (fname data : string)
| EvGetSettings (db_file : pyval)
| EvMMDb (host port database user password collection : pyval)
| EvBuild (indices : pyval)
| EvInsertGridfs (payload ns : string)
| EvInsert (doc : pyval).

(** The collaborators [run_task] calls; none of them is defined in this
    module.  A collaborator that talks to the file system or to the
    database also sees the calls made before it, so its answers may
    depend on them.  [db_insert] receives the task document itself and may
    change it: it answers with the document as it is after the call. *)
Record Env : Type := {
  getcwd : string;
  env_chk : pyval -> FwSpec -> result pyval;
  VaspDrone : pyval -> pyval -> pyval -> pyval -> pyval -> list event -> result pyval;
  class_call : string -> list event -> result pyval;
  assimilate : pyval -> pyval -> list event -> result pyval;
  json_dumps : pyval -> result string;
  json_dumps_monty : pyval -> result string;
  open_file : string -> string -> list event -> result unit;
  file_write : string -> string -> list event -> result unit;
  get_settings : pyval -> list event -> result pyval;
  MMDb : pyval -> pyval -> pyval -> pyval -> pyval -> pyval -> list event -> result unit;
  db_build : pyval -> list event -> result unit;
  db_insert_gridfs : string -> string -> list event -> result (pyval * pyval);
  db_insert : pyval -> list event -> pyval * result pyval
}.

(** The state a run threads: the object named [task_doc] and the trace. *)
Record World : Type := { task_doc : pyval; events : list event }.

Definition M (A : Type) : Type := World -> result A * World.

#[global] Instance M_ret : MRet M := fun A a w => (Ok a, w).
#[global] Instance M_bind : MBind M := fun A B k m w =>
  match m w with
  | (Ok a, w') => k a w'
  | (Raise e, w') => (Raise e, w')
  end.

Definition lift {A : Type} (r : result A) : M A := fun w => (r, w).

(** A call to a collaborator: the answer is computed from the trace so
    far, and the call is appended to the trace. *)
Definition call {A : Type} (ev : event) (oracle : list event -> result A) : M A :=
  fun w => (oracle (events w), {| task_doc := task_doc w; events := events w ++ [ev] |}).

Definition get_task_doc : M pyval := fun w => (Ok (task_doc w), w).

Definition set_task_doc (d : pyval) : M unit :=
  fun w => (Ok tt, {| task_doc := d; events := events w |}).

(** An in-place change of the task document; nothing changes when the
    statement raises. *)
Definition update_task_doc (f : pyval -> result pyval) : M unit :=
  fun w =>
    match f (task_doc w) with
    | Ok d => (Ok tt, {| task_doc := d; events := events w |})
    | Raise e => (Raise e, w)
    end.

Definition logger_info (template : string) (args : list pyval) : M unit :=
  fun w => (Ok tt, {| task_doc := task_doc w; events := events w ++ [EvLog template args] |}).

(** [FWAction(stored_data=..., defuse_children=...)] *)
Record FWAction : Type := {
  stored_data : gmap string pyval;
  defuse_children : bool
}.

(** A statement [task_doc["calcs_reversed"][0]... ] that changes the
    dictionary [task_doc["calcs_reversed"][0]] in place by [op]: both
    lookups are evaluated, then [op]; over values the changed dictionary
    is put back where it was found, and nowhere else ([h_update] is the
    same statement over objects). *)
Definition with_calc0 (op : pyval -> result pyval) (td : pyval) : result pyval :=
  calcs ← getitem_str td "calcs_reversed";
  c0 ← getitem_int calcs 0;
  c0' ← op c0;
  match td, calcs with
  | PDict d, PList (_ :: rest) =>
      Ok (PDict (<["calcs_reversed" := PList (c0' :: rest)]> d))
  | _, _ => Raise TypeError
  end.

(** [task_doc["calcs_reversed"][0][k]] *)
Definition calc0_getitem (k : string) (td : pyval) : result pyval :=
  calcs ← getitem_str td "calcs_reversed";
  c0 ← getitem_int calcs 0;
  getitem_str c0 k.

(** [k in task_doc["calcs_reversed"][0]] *)
Definition calc0_contains (k : string) (td : pyval) : result bool :=
  calcs ← getitem_str td "calcs_reversed";
  c0 ← getitem_int calcs 0;
  contains_str k c0.

Section RunTask.

Variable E : Env.

(** Lines 94-98 with [field = "dos"] and [ns = "dos_fs"]; lines 101-105
    with [field = "bandstructure"] and [ns = "bandstructure_fs"]. *)
Definition gridfs_move (field ns : string) : M unit :=
  td ← get_task_doc;
  v ← lift (calc0_getitem field td);
  payload ← lift (json_dumps_monty E v);
  '(gfs_id, compression_type) ←
    call (EvInsertGridfs payload ns) (db_insert_gridfs E payload ns);
  update_task_doc (with_calc0 (setitem_str (field +:+ "_compression") compression_type));;
  update_task_doc (with_calc0 (setitem_str (field +:+ "_fs_id") gfs_id));;
  update_task_doc (with_calc0 (delitem_str field)).

(** Lines 92-98 with [enabled = self.get("parse_dos", False)]; lines
    99-105 with [enabled = self.get("bandstructure_mode", False)]. *)
Definition offload (enabled : pyval) (field ns : string) : M unit :=
  td ← get_task_doc;
  has_calcs ← lift (if truthy enabled then contains_str "calcs_reversed" td else Ok false);
  if has_calcs : bool then
    has_field ← lift (calc0_contains field td);
    if has_field : bool then gridfs_move field ns else mret tt
  else mret tt.

(** Lines 80-81 and 160-161. *)
Definition write_task_json : M unit :=
  call (EvOpen "task.json" "w") (open_file E "task.json" "w");;
  td ← get_task_doc;
  data ← lift (json_dumps E td);
  call (EvWrite "task.json" data) (file_write E "task.json" data).

(** Lines 83-86 and 163-167. *)
Definition connect (db_file : pyval) : M unit :=
  db_config ← call (EvGetSettings db_file) (get_settings E db_file);
  host ← lift (getitem_str db_config "host");
  port ← lift (getitem_str db_config "port");
  database ← lift (getitem_str db_config "database");
  user ← lift (dict_get db_config "admin_user" PNone);
  password ← lift (dict_get db_config "admin_password" PNone);
  collection ← lift (getitem_str db_config "collection");
  call (EvMMDb host port database user password collection)
       (MMDb E host port database user password collection).

(** Lines 107-108 and 169-170. *)
Definition insert_task_doc : M unit :=
  t_id ← (fun w =>
            let '(d, r) := db_insert E (task_doc w) (events w) in
            (r, {| task_doc := d; events := events w ++ [EvInsert (task_doc w)] |}));
  logger_info "Finished parsing with task_id: {}" [t_id].

(** Lines 109-110 and 172-173. *)
Definition report : M FWAction :=
  td ← get_task_doc;
  task_id ← lift (dict_get td "task_id" PNone);
  state ← lift (getitem_str td "state");
  mret {| stored_data := {["task_id" := task_id]};
          defuse_children := ne_str state "successful" |}.

(** [VaspToDbTask.run_task] *)
Definition VaspToDbTask_run_task (self : gmap string pyval) (fw_spec : FwSpec) : M FWAction :=
  calc_dir ← lift (get_calc_dir (getcwd E) self fw_spec);
  logger_info "PARSING DIRECTORY: {}" [calc_dir];;
  db_file ← lift (env_chk E (self_get self "db_file") fw_spec);
  set_task_doc PNone;;
  let additional_fields := self_get self "additional_fields" in
  let parse_dos := self_get_default self "parse_dos" (PBool false) in
  let bandstructure_mode := self_get_default self "bandstructure_mode" (PBool false) in
  drone ← call (EvNew "VaspDrone"
                  [("additional_fields", additional_fields); ("parse_dos", parse_dos);
                   ("compress_dos", PInt 1); ("bandstructure_mode", bandstructure_mode);
                   ("compress_bs", PInt 1)])
               (VaspDrone E additional_fields parse_dos (PInt 1) bandstructure_mode (PInt 1));
  d ← call (EvAssimilate drone calc_dir) (assimilate E drone calc_dir);
  set_task_doc d;;
  (if negb (truthy db_file) then write_task_json
   else
     connect db_file;;
     (if truthy (self_get_default self "build_db" (PBool false)) then
        if truthy (self_get self "db_indices") then
          call (EvBuild (self_get self "db_indices")) (db_build E (self_get self "db_indices"))
        else mret tt
      else mret tt);;
     offload (self_get_default self "parse_dos" (PBool false)) "dos" "dos_fs";;
     offload (self_get_default self "bandstructure_mode" (PBool false))
             "bandstructure" "bandstructure_fs";;
     insert_task_doc);;
  report.

(** [ToDbTask.run_task] *)
Definition ToDbTask_run_task (self : gmap string pyval) (fw_spec : FwSpec) : M FWAction :=
  calc_dir ← lift (get_calc_dir (getcwd E) self fw_spec);
  passed ← lift (self_getitem self "drone");
  logger_info "PARSING DIRECTORY: {} USING DRONE: {}" [calc_dir; PStr (class_name passed)];;
  db_file ← lift (env_chk E (self_get self "db_file") fw_spec);
  set_task_doc PNone;;
  passed' ← lift (self_getitem self "drone");
  drone ← call (EvNew (class_name passed') []) (class_call E (class_name passed'));
  d ← call (EvAssimilate drone calc_dir) (assimilate E drone calc_dir);
  set_task_doc d;;
  (if negb (truthy db_file) then write_task_json
   else
     connect db_file;;
     insert_task_doc);;
  report.

End RunTask.

(** The two firetasks of the module. *)
Inductive firetask : Type := VaspToDbTask | ToDbTask.

Definition run_task (E : Env) (cls : firetask) : gmap string pyval -> FwSpec -> M FWAction :=
  match cls with
  | VaspToDbTask => VaspToDbTask_run_task E
  | ToDbTask => ToDbTask_run_task E
  end.

(** ** Reading a trace *)

(** Calls to the database: settings, connection, indices, GridFS, insert. *)
Definition is_store_call (ev : event) : bool :=
  match ev with
  | EvGetSettings _ | EvMMDb _ _ _ _ _ _ | EvBuild _ | EvInsertGridfs _ _ | EvInsert _ => true
  | _ => false
  end.

(** Calls that create or write a local file. *)
Definition is_file_call (ev : event) : bool :=
  match ev with
  | EvOpen _ _ | EvWrite _ _ => true
  | _ => false
  end.

(** What [calcs_reversed[0]] holds for a field: the field itself, and the
    pair of keys that refers to its GridFS copy. *)
Definition has_key (k : string) (c : gmap string pyval) : bool :=
  match c !! k with Some _ => true | None => false end.

Definition has_inline (field : string) (c : gmap string pyval) : bool := has_key field c.

Definition has_reference (field : string) (c : gmap string pyval) : bool :=
  has_key (field +:+ "_fs_id") c && has_key (field +:+ "_compression") c.

(** The most recent record named [n] in a history (oldest first). *)
Definition most_recent (n : string) (history : list LocationRecord) : option LocationRecord :=
  List.find (fun doc => String.eqb n (name doc)) (rev history).

(** ** A concrete world to run the tasks in *)

(** Collaborators that always answer: the drone returns [doc] for every
    directory, [env_chk] returns a literal value as it is, GridFS answers
    with a fixed id and compression, and [db.insert] records the id it
    assigns in the document, as [MMDb.insert] does. *)
Definition demo_env (doc : pyval) : Env := {|
  getcwd := "/cwd";
  env_chk := fun val _ => Ok val;
  VaspDrone := fun _ _ _ _ _ _ => Ok (PObj "VaspDrone" ∅);
  class_call := fun cls _ => Ok (PObj cls ∅);
  assimilate := fun _ _ _ => Ok doc;
  json_dumps := fun _ => Ok "{}";
  json_dumps_monty := fun _ => Ok "[]";
  open_file := fun _ _ _ => Ok tt;
  file_write := fun _ _ _ => Ok tt;
  get_settings := fun _ _ =>
    Ok (PDict (<["host" := PStr "localhost"]> (<["port" := PInt 27017]>
         (<["database" := PStr "vasp"]> (<["collection" := PStr "tasks"]> ∅)))));
  MMDb := fun _ _ _ _ _ _ _ => Ok tt;
  db_build := fun _ _ => Ok tt;
  db_insert_gridfs := fun _ _ _ => Ok (PStr "5f1e", PStr "zlib");
  db_insert := fun d _ =>
    (match d with PDict m => PDict (<["task_id" := PInt 1]> m) | _ => d end, Ok (PInt 1))
|}.

(** The same collaborators with a GridFS that is down. *)
Definition gridfs_down_env (doc : pyval) : Env := {|
  getcwd := getcwd (demo_env doc);
  env_chk := env_chk (demo_env doc);
  VaspDrone := VaspDrone (demo_env doc);
  class_call := class_call (demo_env doc);
  assimilate := assimilate (demo_env doc);
  json_dumps := json_dumps (demo_env doc);
  json_dumps_monty := json_dumps_monty (demo_env doc);
  open_file := open_file (demo_env doc);
  file_write := file_write (demo_env doc);
  get_settings := get_settings (demo_env doc);
  MMDb := MMDb (demo_env doc);
  db_build := db_build (demo_env doc);
  db_insert_gridfs := fun _ _ _ => Raise (External "gridfs" "connection lost");
  db_insert := db_insert (demo_env doc)
|}.

Definition start (td : pyval) : World := {| task_doc := td; events := [] |}.

Definition no_calc_locs : FwSpec := {| calc_locs := None; fw_other := ∅ |}.
Definition history (l : list LocationRecord) : FwSpec := {| calc_locs := Some l; fw_other := ∅ |}.

Definition dos_payload : pyval := PList [PInt 1; PInt 2].

Definition calc_with_dos : gmap string pyval :=
  <["dos" := dos_payload]> (<["task" := PStr "relax"]> ∅).

Definition doc_with_dos : gmap string pyval :=
  <["state" := PStr "successful"]>
    (<["calcs_reversed" := PList [PDict calc_with_dos; PDict ∅]]> ∅).

Definition doc_empty_calcs : gmap string pyval :=
  <["state" := PStr "successful"]> (<["calcs_reversed" := PList []]> ∅).

Definition doc_no_calcs : gmap string pyval := <["state" := PStr "error"]> ∅.

Definition doc_with_task_id : gmap string pyval :=
  <["state" := PStr "successful"]> (<["task_id" := PInt 7]> ∅).

(** ** More ways to read a trace, and more worlds *)

Definition is_gridfs_call (ev : event) : bool :=
  match ev with
  | EvInsertGridfs _ _ => true
  | _ => false
  end.

Definition is_build_call (ev : event) : bool :=
  match ev with
  | EvBuild _ => true
  | _ => false
  end.

(** [m] leaves the trace it finds in place and appends to it only calls
    accepted by [P]. *)
Definition appends {A : Type} (P : event -> bool) (m : M A) : Prop :=
  forall w : World,
    exists new : list event, events (m w).2 = (events w ++ new)%list /\ forallb P new = true.

(** Collaborators as in [demo_env], with a drone that cannot parse the
    directory [/bad] and returns [doc] for every other one. *)
Definition picky_drone_env (doc : pyval) : Env := {|
  getcwd := getcwd (demo_env doc);
  env_chk := env_chk (demo_env doc);
  VaspDrone := VaspDrone (demo_env doc);
  class_call := class_call (demo_env doc);
  assimilate := fun _ calc_dir _ =>
    if eq_str calc_dir "/bad" then Raise (External "drone" "no vasprun.xml") else Ok doc;
  json_dumps := json_dumps (demo_env doc);
  json_dumps_monty := json_dumps_monty (demo_env doc);
  open_file := open_file (demo_env doc);
  file_write := file_write (demo_env doc);
  get_settings := get_settings (demo_env doc);
  MMDb := MMDb (demo_env doc);
  db_build := db_build (demo_env doc);
  db_insert_gridfs := db_insert_gridfs (demo_env doc);
  db_insert := db_insert (demo_env doc)
|}.

Definition bs_payload : pyval := PList [PInt 3].

Definition calc_with_both : gmap string pyval :=
  <["bandstructure" := bs_payload]> calc_with_dos.

Definition doc_with_both : gmap string pyval :=
  <["state" := PStr "successful"]> (<["calcs_reversed" := PList [PDict calc_with_both]]> ∅).

Definition two_locs : list LocationRecord :=
  [{| name := "relax"; path := "/scratch/a" |};
   {| name := "static"; path := "/scratch/b" |};
   {| name := "relax"; path := "/scratch/c" |};
   {| name := "static"; path := "/scratch/d" |}].

(** The [else] branch of [if not db_file], by name: lines 83-108 of
    [VaspToDbTask.run_task] and lines 163-170 of [ToDbTask.run_task]. *)
Definition db_insertion (E : Env) (cls : firetask) (self : gmap string pyval)
    (db_file : pyval) : M unit :=
  match cls with
  | VaspToDbTask =>
      connect E db_file;;
      (if truthy (self_get_default self "build_db" (PBool false)) then
         if truthy (self_get self "db_indices") then
           call (EvBuild (self_get self "db_indices")) (db_build E (self_get self "db_indices"))
         else mret tt
       else mret tt);;
      offload E (self_get_default self "parse_dos" (PBool false)) "dos" "dos_fs";;
      offload E (self_get_default self "bandstructure_mode" (PBool false))
              "bandstructure" "bandstructure_fs";;
      insert_task_doc E
  | ToDbTask =>
      connect E db_file;;
      insert_task_doc E
  end.

(** Lines 79-108 and 159-170: the file or the database. *)
Definition persist (E : Env) (cls : firetask) (self : gmap string pyval)
    (db_file : pyval) : M unit :=
  if negb (truthy db_file) then write_task_json E else db_insertion E cls self db_file.

Definition is_assimilate_call (ev : event) : bool :=
  match ev with
  | EvAssimilate _ _ => true
  | _ => false
  end.

(** ** The task document as objects

    Lines 96-98 and 103-105 change one dictionary object in place.  Where
    a property depends on which object that is, and on what else refers to
    it, the document is a store of objects: dictionaries and lists live at
    addresses, and a value is a scalar or a reference to an object. *)

Inductive hval : Type :=
| HNone
| HBool (b : bool)
| HInt (n : Z)
| HStr (s : string)
| HObj (cls : string) (repr : string)
| HRef (a : nat).

Inductive hobj : Type :=
| HDict (d : gmap string hval)
| HList (l : list hval).

(** A reference always has its object; the other case is there for
    totality. *)
Definition h_deref (h : gmap nat hobj) (a : nat) : result hobj :=
  match h !! a with
  | Some o => Ok o
  | None => Raise (External "object" "no such object")
  end.

Definition h_eq_str (x : hval) (s : string) : bool :=
  match x with
  | HStr t => String.eqb t s
  | _ => false
  end.

(** [k in x] *)
Definition h_contains_str (k : string) (x : hval) (h : gmap nat hobj) : result bool :=
  match x with
  | HRef a =>
      o ← h_deref h a;
      match o with
      | HDict d => Ok (match d !! k with Some _ => true | None => false end)
      | HList l => Ok (existsb (fun y => h_eq_str y k) l)
      end
  | HStr s => Ok (is_substring k s)
  | HNone | HBool _ | HInt _ | HObj _ _ => Raise TypeError
  end.

(** [x[k]] for a string [k] *)
Definition h_getitem_str (x : hval) (k : string) (h : gmap nat hobj) : result hval :=
  match x with
  | HRef a =>
      o ← h_deref h a;
      match o with
      | HDict d =>
          match d !! k with
          | Some y => Ok y
          | None => Raise (KeyError (PStr k))
          end
      | HList _ => Raise TypeError
      end
  | _ => Raise TypeError
  end.

(** [x[i]] for an integer [i] *)
Definition h_getitem_int (x : hval) (i : Z) (h : gmap nat hobj) : result hval :=
  match x with
  | HRef a =>
      o ← h_deref h a;
      match o with
      | HList l =>
          match norm_index (length l) i with
          | Some j => match l !! j with Some y => Ok y | None => Raise IndexError end
          | None => Raise IndexError
          end
      | HDict _ => Raise (KeyError (PInt i))
      end
  | HStr s =>
      match norm_index (String.length s) i with
      | Some j =>
          match String.get j s with
          | Some c => Ok (HStr (String c EmptyString))
          | None => Raise IndexError
          end
      | None => Raise IndexError
      end
  | HNone | HBool _ | HInt _ | HObj _ _ => Raise TypeError
  end.

(** [x[k] = y]: the object [x] refers to is changed where it lives. *)
Definition h_setitem_str (k : string) (y : hval) (x : hval) (h : gmap nat hobj)
    : result (gmap nat hobj) :=
  match x with
  | HRef a =>
      o ← h_deref h a;
      match o with
      | HDict d => Ok (<[a := HDict (<[k := y]> d)]> h)
      | HList _ => Raise TypeError
      end
  | _ => Raise TypeError
  end.

(** [del x[k]] *)
Definition h_delitem_str (k : string) (x : hval) (h : gmap nat hobj)
    : result (gmap nat hobj) :=
  match x with
  | HRef a =>
      o ← h_deref h a;
      match o with
      | HDict d =>
          match d !! k with
          | Some _ => Ok (<[a := HDict (delete k d)]> h)
          | None => Raise (KeyError (PStr k))
          end
      | HList _ => Raise TypeError
      end
  | _ => Raise TypeError
  end.

(** [task_doc["calcs_reversed"][i]] *)
Definition h_calc (i : Z) (td : hval) (h : gmap nat hobj) : result hval :=
  calcs ← h_getitem_str td "calcs_reversed" h;
  h_getitem_int calcs i h.

(** [task_doc["calcs_reversed"][i][k]] *)
Definition h_calc_item (i : Z) (k : string) (td : hval) (h : gmap nat hobj) : result hval :=
  c ← h_calc i td h;
  h_getitem_str c k h.

(** The store, the value of the variable [task_doc], and the trace. *)
Record HWorld : Type := {
  heap : gmap nat hobj;
  h_task_doc : hval;
  h_events : list event
}.

Definition HM (A : Type) : Type := HWorld -> result A * HWorld.

#[global] Instance HM_ret : MRet HM := fun A a w => (Ok a, w).
#[global] Instance HM_bind : MBind HM := fun A B k m w =>
  match m w with
  | (Ok a, w') => k a w'
  | (Raise e, w') => (Raise e, w')
  end.

(** An expression over [task_doc]: it reads the store and changes
    nothing. *)
Definition h_read {A : Type} (f : hval -> gmap nat hobj -> result A) : HM A :=
  fun w => (f (h_task_doc w) (heap w), w).

(** A statement over [task_doc] that changes an object; nothing changes
    when it raises. *)
Definition h_update (f : hval -> gmap nat hobj -> result (gmap nat hobj)) : HM unit :=
  fun w =>
    match f (h_task_doc w) (heap w) with
    | Ok h' => (Ok tt, {| heap := h'; h_task_doc := h_task_doc w; h_events := h_events w |})
    | Raise e => (Raise e, w)
    end.

Definition h_call {A : Type} (ev : event) (oracle : list event -> result A) : HM A :=
  fun w => (oracle (h_events w),
            {| heap := heap w; h_task_doc := h_task_doc w; h_events := h_events w ++ [ev] |}).

(** The two collaborators of a GridFS block.  [json.dumps] reads the
    objects its argument refers to; [insert_gridfs] answers with an id and
    a compression. *)
Record GridFS : Type := {
  h_json_dumps_monty : gmap nat hobj -> hval -> result string;
  h_insert_gridfs : string -> string -> list event -> result (hval * hval)
}.

(** Lines 94-98 and 101-105, on objects. *)
Definition h_gridfs_move (G : GridFS) (field ns : string) : HM unit :=
  v ← h_read (h_calc_item 0 field);
  payload ← (fun w => (h_json_dumps_monty G (heap w) v, w));
  '(gfs_id, compression_type) ←
    h_call (EvInsertGridfs payload ns) (h_insert_gridfs G payload ns);
  h_update (fun td h =>
              c0 ← h_calc 0 td h;
              h_setitem_str (field +:+ "_compression") compression_type c0 h);;
  h_update (fun td h =>
              c0 ← h_calc 0 td h;
              h_setitem_str (field +:+ "_fs_id") gfs_id c0 h);;
  h_update (fun td h =>
              c0 ← h_calc 0 td h;
              h_delitem_str field c0 h).

(** Lines 92-98 and 99-105, on objects. *)
Definition h_offload (G : GridFS) (enabled : pyval) (field ns : string) : HM unit :=
  has_calcs ← h_read (fun td h =>
                        if truthy enabled then h_contains_str "calcs_reversed" td h
                        else Ok false);
  if has_calcs : bool then
    has_field ← h_read (fun td h => c0 ← h_calc 0 td h; h_contains_str field c0 h);
    if has_field : bool then h_gridfs_move G field ns else mret tt
  else mret tt.

(** [task_doc] refers, at [a_doc], to a dictionary whose [calcs_reversed]
    is the list object at [a_calcs], and the first element of that list
    refers to the dictionary [c0] at [a0]; [rest] are the later elements. *)
Definition first_calc (a_doc a_calcs a0 : nat) (rest : list hval)
    (h : gmap nat hobj) (c0 : gmap string hval) : Prop :=
  (exists d, h !! a_doc = Some (HDict d) /\ d !! "calcs_reversed" = Some (HRef a_calcs)) /\
  h !! a_calcs = Some (HList (HRef a0 :: rest)) /\
  h !! a0 = Some (HDict c0).

Definition demo_gridfs : GridFS := {|
  h_json_dumps_monty := fun _ _ => Ok "[]";
  h_insert_gridfs := fun _ _ _ => Ok (HObj "ObjectId" "5f1e", HStr "zlib")
|}.

Definition h_start (h : gmap nat hobj) (td : hval) : HWorld :=
  {| heap := h; h_task_doc := td; h_events := [] |}.

(** A document with two calculations, each an object of its own. *)
Definition two_calcs_heap : gmap nat hobj :=
  <[1%nat := HDict (<["state" := HStr "successful"]> (<["calcs_reversed" := HRef 2]> ∅))]>
  (<[2%nat := HList [HRef 3; HRef 5]]>
  (<[3%nat := HDict (<["dos" := HRef 4]> (<["task" := HStr "static"]> ∅))]>
  (<[4%nat := HList [HInt 1; HInt 2]]>
  (<[5%nat := HDict (<["dos" := HRef 4]> (<["task" := HStr "relax"]> ∅))]> ∅)))).

(** A document whose list of calculations holds the same object twice:
    [c = {...}; doc = {"state": ..., "calcs_reversed": [c, c]}]. *)
Definition shared_calc_heap : gmap nat hobj :=
  <[1%nat := HDict (<["state" := HStr "successful"]> (<["calcs_reversed" := HRef 2]> ∅))]>
  (<[2%nat := HList [HRef 3; HRef 3]]>
  (<[3%nat := HDict (<["dos" := HRef 4]> (<["task" := HStr "static"]> ∅))]>
  (<[4%nat := HList [HInt 1; HInt 2]]> ∅))).

(** * Properties *)

(** ** The monads *)

Lemma result_bind_Ok {A B : Type} (r : result A) (k : A -> result B) (b : B) :
  r ≫= k = Ok b -> exists a, r = Ok a /\ k a = Ok b.
Proof. destruct r as [a|e]; simpl; [eauto | discriminate]. Qed.

Lemma bind_run {A B : Type} (m : M A) (k : A -> M B) (w : World) :
  (m ≫= k) w =
  match m w with
  | (Ok a, w') => k a w'
  | (Raise e, w') => (Raise e, w')
  end.
Proof. reflexivity. Qed.

Lemma bind_Ok {A B : Type} (m : M A) (k : A -> M B) (w w' : World) (b : B) :
  (m ≫= k) w = (Ok b, w') ->
  exists a w1, m w = (Ok a, w1) /\ k a w1 = (Ok b, w').
Proof.
  rewrite bind_run. destruct (m w) as [[a|e] w1]; [eauto | discriminate].
Qed.

(** ** Resolution of the calculation directory *)

Lemma norm_index_last (n : nat) :
  norm_index n (-1) = match n with O => None | S m => Some m end.
Proof.
  unfold norm_index. destruct n as [|m]; [reflexivity|].
  replace (-1 <? 0) with true by reflexivity.
  destruct (_ || _) eqn:Hb.
  - apply orb_true_iff in Hb as [Hb|Hb]; [apply Z.ltb_lt in Hb|apply Z.leb_le in Hb]; lia.
  - f_equal. lia.
Qed.

Lemma last_calc_loc_path_eq (fw_spec : FwSpec) (locs : list LocationRecord) :
  calc_locs fw_spec = Some locs ->
  last_calc_loc_path fw_spec =
  match last locs with
  | Some doc => Ok (PStr (path doc))
  | None => Raise IndexError
  end.
Proof.
  intros Hl. unfold last_calc_loc_path, fw_calc_locs. rewrite Hl. simpl.
  rewrite norm_index_last, last_lookup.
  destruct locs as [|doc locs]; [reflexivity|].
  cbn [length Nat.pred]. reflexivity.
Qed.

(** The loop finds the first record, in the order visited, whose name is
    the string stored under [calc_loc_name]. *)
Lemma scan_calc_locs_find (self : gmap string pyval) (n : string)
    (docs : list LocationRecord) (calc_dir : pyval) :
  self !! "calc_loc_name" = Some (PStr n) ->
  scan_calc_locs self docs calc_dir =
  match List.find (fun doc => String.eqb n (name doc)) docs with
  | Some doc => Ok (PStr (path doc))
  | None => Ok calc_dir
  end.
Proof.
  intros Hn. induction docs as [|doc docs IH]; [reflexivity|].
  simpl. unfold self_getitem. rewrite Hn. simpl.
  destruct (String.eqb n (name doc)); [reflexivity | exact IH].
Qed.

(** With a string under [calc_loc] and the same string under
    [calc_loc_name], the most recent record of that name is chosen. *)
Lemma get_calc_dir_named (cwd : string) (self : gmap string pyval) (fw_spec : FwSpec)
    (n : string) (locs : list LocationRecord) (doc : LocationRecord) :
  self !! "calc_dir" = None ->
  self !! "calc_loc" = Some (PStr n) ->
  n <> "" ->
  self !! "calc_loc_name" = Some (PStr n) ->
  calc_locs fw_spec = Some locs ->
  most_recent n locs = Some doc ->
  get_calc_dir cwd self fw_spec = Ok (PStr (path doc)).
Proof.
  intros Hdir Hloc Hne Hname Hlocs Hfind.
  unfold get_calc_dir, self_get, self_getitem, fw_calc_locs.
  rewrite Hdir, Hloc, Hlocs. simpl.
  destruct (String.eqb n "") eqn:Hn; [apply String.eqb_eq in Hn; contradiction|].
  simpl. rewrite (scan_calc_locs_find self n) by exact Hname.
  unfold most_recent in Hfind. rewrite Hfind. reflexivity.
Qed.

(** Without [calc_loc_name] the first record visited already raises. *)
Lemma scan_calc_locs_no_name (self : gmap string pyval) (doc : LocationRecord)
    (docs : list LocationRecord) (calc_dir : pyval) :
  self !! "calc_loc_name" = None ->
  scan_calc_locs self (doc :: docs) calc_dir = Raise (KeyError (PStr "calc_loc_name")).
Proof. intros Hn. simpl. unfold self_getitem. rewrite Hn. reflexivity. Qed.

(** So a string under [calc_loc] alone never selects a record: with a
    history that is not empty the resolution raises. *)
Lemma get_calc_dir_named_without_key (cwd : string) (self : gmap string pyval)
    (fw_spec : FwSpec) (n : string) (locs : list LocationRecord) :
  self !! "calc_dir" = None ->
  self !! "calc_loc" = Some (PStr n) ->
  n <> "" ->
  self !! "calc_loc_name" = None ->
  calc_locs fw_spec = Some locs ->
  locs <> [] ->
  get_calc_dir cwd self fw_spec = Raise (KeyError (PStr "calc_loc_name")).
Proof.
  intros Hdir Hloc Hne Hname Hlocs Hnil.
  unfold get_calc_dir, self_get, self_getitem, fw_calc_locs.
  rewrite Hdir, Hloc, Hlocs. simpl.
  destruct (String.eqb n "") eqn:Hn; [apply String.eqb_eq in Hn; contradiction|].
  simpl. destruct (rev locs) as [|doc docs] eqn:Hrev.
  - apply (f_equal (@rev _)) in Hrev. rewrite rev_involutive in Hrev. contradiction.
  - by apply scan_calc_locs_no_name.
Qed.

(** C2, the code at the failing input: a task whose only parameter is
    [calc_loc = "relax"] and a history holding one record named
    ["relax"].  The loop compares the record's name with
    [self["calc_loc_name"]], a key that is not there, and [KeyError] is
    raised where the path of the record should have been returned. *)
Theorem C2_name_selector_raises_KeyError :
  most_recent "relax" [{| name := "relax"; path := "/scratch/relax" |}]
    = Some {| name := "relax"; path := "/scratch/relax" |} /\
  get_calc_dir "/cwd" {["calc_loc" := PStr "relax"]}
    (history [{| name := "relax"; path := "/scratch/relax" |}])
    = Raise (KeyError (PStr "calc_loc_name")).
Proof. split; reflexivity. Qed.

(** C7 as stated fails: with [calc_loc = True] and an empty history the
    lookup of element [-1] raises [IndexError]. *)
Lemma C7_empty_history_raises_IndexError :
  get_calc_dir "/cwd" {["calc_loc" := PBool true]} (history []) = Raise IndexError.
Proof. reflexivity. Qed.

(** C7, amended: when [calc_loc] is true without being a string (and no
    [calc_dir] is given), the result is the path of the last record of the
    history whatever its name, and [IndexError] when the history is
    empty. *)
Theorem C7_flag_selects_last_record (cwd : string) (self : gmap string pyval)
    (fw_spec : FwSpec) (flag : pyval) (locs : list LocationRecord) :
  self !! "calc_dir" = None ->
  self !! "calc_loc" = Some flag ->
  truthy flag = true ->
  is_string flag = false ->
  calc_locs fw_spec = Some locs ->
  get_calc_dir cwd self fw_spec =
  match last locs with
  | Some doc => Ok (PStr (path doc))
  | None => Raise IndexError
  end.
Proof.
  intros Hdir Hloc Ht Hs Hlocs.
  unfold get_calc_dir, self_get, self_getitem. rewrite Hdir, Hloc. simpl.
  rewrite Ht, Hs. by apply last_calc_loc_path_eq.
Qed.

Lemma C7_flag_selects_last_record_witness :
  get_calc_dir "/cwd" {["calc_loc" := PBool true]}
    (history [{| name := "static"; path := "/scratch/a" |};
              {| name := "relax"; path := "/scratch/b" |}])
  = Ok (PStr "/scratch/b").
Proof.
  exact (C7_flag_selects_last_record "/cwd" {["calc_loc" := PBool true]}
           (history [{| name := "static"; path := "/scratch/a" |};
                     {| name := "relax"; path := "/scratch/b" |}])
           (PBool true) _ eq_refl eq_refl eq_refl eq_refl eq_refl).
Defined.

(** ** Moving a field to GridFS *)

Lemma append_suffix_ne (s t : string) : t <> "" -> s +:+ t <> s.
Proof.
  intros Ht. induction s as [|a s IH]; simpl.
  - exact Ht.
  - intros Heq. apply IH. injection Heq as Heq. exact Heq.
Qed.

Lemma norm_index_0 (n : nat) : norm_index (S n) 0 = Some O.
Proof.
  unfold norm_index. replace (0 <? 0) with false by reflexivity.
  destruct (_ || _) eqn:Hb; [|reflexivity].
  apply orb_true_iff in Hb as [Hb|Hb]; [apply Z.ltb_lt in Hb|apply Z.leb_le in Hb]; lia.
Qed.

Lemma getitem_int_0_cons (x : pyval) (l : list pyval) : getitem_int (PList (x :: l)) 0 = Ok x.
Proof. unfold getitem_int. cbn [length]. rewrite norm_index_0. reflexivity. Qed.

Lemma getitem_int_0_nil : getitem_int (PList []) 0 = Raise IndexError.
Proof. reflexivity. Qed.

(** What [task_doc["calcs_reversed"][0][k]] having a value says about the
    document. *)
Lemma calc0_getitem_Ok (k : string) (td v : pyval) :
  calc0_getitem k td = Ok v ->
  exists d c0 rest,
    td = PDict d /\ d !! "calcs_reversed" = Some (PList (PDict c0 :: rest)) /\ c0 !! k = Some v.
Proof.
  unfold calc0_getitem. intros H.
  apply result_bind_Ok in H as (calcs & Hcalcs & H).
  apply result_bind_Ok in H as (c0 & Hc0 & H).
  destruct td as [| | | | |d|]; try discriminate. simpl in Hcalcs.
  destruct (d !! "calcs_reversed") as [x|] eqn:Hd; [|discriminate].
  injection Hcalcs as ->.
  destruct c0 as [| | | | |c|]; try discriminate. simpl in H.
  destruct (c !! k) as [y|] eqn:Hk; [|discriminate]. injection H as ->.
  destruct calcs as [| | |s|l| |]; try discriminate.
  - simpl in Hc0. destruct (norm_index _ _); [|discriminate].
    destruct (String.get _ _); discriminate.
  - destruct l as [|x l]; [discriminate|].
    rewrite getitem_int_0_cons in Hc0. injection Hc0 as ->.
    exists d, c, l. auto.
Qed.

Section Calc0.

Variables (d c0 : gmap string pyval) (rest : list pyval).
Hypothesis Hcalcs : d !! "calcs_reversed" = Some (PList (PDict c0 :: rest)).

Lemma calc0_getitem_dict (k : string) :
  calc0_getitem k (PDict d) =
  match c0 !! k with Some v => Ok v | None => Raise (KeyError (PStr k)) end.
Proof.
  unfold calc0_getitem. cbn [getitem_str]. rewrite Hcalcs.
  cbn [mbind result_bind]. rewrite getitem_int_0_cons. reflexivity.
Qed.

Lemma calc0_contains_dict (k : string) :
  calc0_contains k (PDict d) = Ok (match c0 !! k with Some _ => true | None => false end).
Proof.
  unfold calc0_contains. cbn [getitem_str]. rewrite Hcalcs.
  cbn [mbind result_bind]. rewrite getitem_int_0_cons. reflexivity.
Qed.

Lemma with_calc0_dict (op : pyval -> result pyval) :
  with_calc0 op (PDict d) =
  match op (PDict c0) with
  | Ok c0' => Ok (PDict (<["calcs_reversed" := PList (c0' :: rest)]> d))
  | Raise e => Raise e
  end.
Proof.
  unfold with_calc0. cbn [getitem_str]. rewrite Hcalcs.
  cbn [mbind result_bind]. rewrite getitem_int_0_cons.
  cbn [mbind result_bind]. destruct (op (PDict c0)); reflexivity.
Qed.

End Calc0.

Section Offload.

Variable E : Env.

(** The three outcomes of lines 94-98 on a document whose first
    calculation is a dictionary holding the field. *)
Lemma gridfs_move_run (field ns : string) (w : World) (d c0 : gmap string pyval)
    (rest : list pyval) (v : pyval) :
  task_doc w = PDict d ->
  d !! "calcs_reversed" = Some (PList (PDict c0 :: rest)) ->
  c0 !! field = Some v ->
  gridfs_move E field ns w =
  match json_dumps_monty E v with
  | Raise e => (Raise e, w)
  | Ok payload =>
      let tr := (events w ++ [EvInsertGridfs payload ns])%list in
      match db_insert_gridfs E payload ns (events w) with
      | Raise e => (Raise e, {| task_doc := task_doc w; events := tr |})
      | Ok (gfs_id, compression_type) =>
          (Ok tt,
           {| task_doc :=
                PDict (<["calcs_reversed" :=
                          PList (PDict (delete field
                                   (<[field +:+ "_fs_id" := gfs_id]>
                                      (<[field +:+ "_compression" := compression_type]> c0)))
                                 :: rest)]> d);
              events := tr |})
      end
  end.
Proof.
  intros Htd Hcalcs Hfield. destruct w as [td tr]. cbn [task_doc events] in *. subst td.
  unfold gridfs_move.
  rewrite bind_run. unfold get_task_doc at 1. cbn [task_doc events].
  rewrite bind_run. unfold lift at 1.
  rewrite (calc0_getitem_dict d c0 rest Hcalcs), Hfield.
  rewrite bind_run. unfold lift at 1.
  destruct (json_dumps_monty E v) as [payload|e]; [|reflexivity].
  rewrite bind_run. unfold call at 1. cbn [task_doc events].
  destruct (db_insert_gridfs E payload ns tr) as [[gfs_id ct]|e]; [|reflexivity].
  rewrite bind_run. unfold update_task_doc at 1. cbn [task_doc events].
  rewrite (with_calc0_dict d c0 rest Hcalcs). cbn [setitem_str].
  rewrite bind_run. unfold update_task_doc at 1. cbn [task_doc events].
  rewrite (with_calc0_dict _ _ rest (lookup_insert_eq _ _ _)). cbn [setitem_str].
  unfold update_task_doc. cbn [task_doc events].
  rewrite (with_calc0_dict _ _ rest (lookup_insert_eq _ _ _)). cbn [delitem_str].
  rewrite lookup_insert_ne by (apply append_suffix_ne; discriminate).
  rewrite lookup_insert_ne by (apply append_suffix_ne; discriminate).
  rewrite Hfield. rewrite !insert_insert_eq. reflexivity.
Qed.


(** With the field enabled and present, the guards of lines 92-93 let
    the block run. *)
Lemma offload_enters (enabled : pyval) (field ns : string) (w : World)
    (d c0 : gmap string pyval) (rest : list pyval) (v : pyval) :
  truthy enabled = true ->
  task_doc w = PDict d ->
  d !! "calcs_reversed" = Some (PList (PDict c0 :: rest)) ->
  c0 !! field = Some v ->
  offload E enabled field ns w = gridfs_move E field ns w.
Proof.
  intros Hen Htd Hcalcs Hfield. unfold offload.
  rewrite bind_run. unfold get_task_doc at 1.
  rewrite bind_run. unfold lift at 1. rewrite Hen, Htd.
  cbn [contains_str]. rewrite Hcalcs.
  rewrite bind_run. unfold lift at 1.
  rewrite (calc0_contains_dict d c0 rest Hcalcs), Hfield. reflexivity.
Qed.

(** A block that raises has not touched the document. *)
Lemma gridfs_move_Raise (field ns : string) (w w' : World) (e : exn) :
  gridfs_move E field ns w = (Raise e, w') -> task_doc w' = task_doc w.
Proof.
  destruct (calc0_getitem field (task_doc w)) as [v|e0] eqn:Hv.
  - destruct (calc0_getitem_Ok _ _ _ Hv) as (d & c0 & rest & Htd & Hcalcs & Hfield).
    rewrite (gridfs_move_run field ns w d c0 rest v Htd Hcalcs Hfield).
    destruct (json_dumps_monty E v) as [payload|e1]; [|by intros [= _ <-]].
    cbv zeta. destruct (db_insert_gridfs E payload ns (events w)) as [[gfs_id ct]|e1].
    + discriminate.
    + by intros [= _ <-].
  - unfold gridfs_move. rewrite bind_run. unfold get_task_doc at 1.
    rewrite bind_run. unfold lift at 1. rewrite Hv. by intros [= _ <-].
Qed.

(** A block that returns has had its answer from GridFS. *)
Lemma gridfs_move_Ok (field ns : string) (w w' : World) :
  gridfs_move E field ns w = (Ok tt, w') ->
  exists payload ref,
    db_insert_gridfs E payload ns (events w) = Ok ref /\
    events w' = (events w ++ [EvInsertGridfs payload ns])%list.
Proof.
  destruct (calc0_getitem field (task_doc w)) as [v|e0] eqn:Hv.
  - destruct (calc0_getitem_Ok _ _ _ Hv) as (d & c0 & rest & Htd & Hcalcs & Hfield).
    rewrite (gridfs_move_run field ns w d c0 rest v Htd Hcalcs Hfield).
    destruct (json_dumps_monty E v) as [payload|e1]; [|discriminate].
    cbv zeta. destruct (db_insert_gridfs E payload ns (events w)) as [[gfs_id ct]|e1] eqn:Hg.
    + intros [= <-]. exists payload, (gfs_id, ct). auto.
    + discriminate.
  - unfold gridfs_move. rewrite bind_run. unfold get_task_doc at 1.
    rewrite bind_run. unfold lift at 1. rewrite Hv. discriminate.
Qed.

(** The guards of lines 92-93 (and 99-100), then the block. *)
Lemma offload_run (enabled : pyval) (field ns : string) (w : World) :
  offload E enabled field ns w =
  match (if truthy enabled then contains_str "calcs_reversed" (task_doc w) else Ok false) with
  | Ok true =>
      match calc0_contains field (task_doc w) with
      | Ok true => gridfs_move E field ns w
      | Ok false => (Ok tt, w)
      | Raise e => (Raise e, w)
      end
  | Ok false => (Ok tt, w)
  | Raise e => (Raise e, w)
  end.
Proof.
  unfold offload. rewrite bind_run. unfold get_task_doc at 1.
  rewrite bind_run. unfold lift at 1.
  destruct (if truthy enabled then _ else _) as [[|]|e]; try reflexivity.
  rewrite bind_run. unfold lift at 1.
  destruct (calc0_contains field (task_doc w)) as [[|]|e]; reflexivity.
Qed.

(** Either the guards stop [offload] where it started, or it is the
    block. *)
Lemma offload_cases (enabled : pyval) (field ns : string) (w : World) :
  (exists r, offload E enabled field ns w = (r, w)) \/
  offload E enabled field ns w = gridfs_move E field ns w.
Proof.
  rewrite offload_run.
  destruct (if truthy enabled then _ else _) as [[|]|e]; [|left; eauto ..].
  destruct (calc0_contains field (task_doc w)) as [[|]|e]; [right; reflexivity|left; eauto ..].
Qed.

End Offload.

(** C1: on a document whose [calcs_reversed] is non-empty and whose first
    calculation holds the enabled field, an [offload] that returns leaves
    [calcs_reversed[0]] with the reference pair and without the inline
    field: exactly one of the two.  An [offload] that raises leaves the
    first calculation as it was, inline field included. *)
Theorem C1_inline_xor_reference (E : Env) (enabled : pyval) (field ns : string) (w : World)
    (d c0 : gmap string pyval) (rest : list pyval) (v : pyval) :
  truthy enabled = true ->
  task_doc w = PDict d ->
  d !! "calcs_reversed" = Some (PList (PDict c0 :: rest)) ->
  c0 !! field = Some v ->
  exists c0',
    getitem_str (task_doc (offload E enabled field ns w).2) "calcs_reversed"
      = Ok (PList (PDict c0' :: rest)) /\
    match (offload E enabled field ns w).1 with
    | Ok _ =>
        has_inline field c0' = false /\ has_reference field c0' = true /\
        xorb (has_inline field c0') (has_reference field c0') = true
    | Raise _ => c0' = c0 /\ has_inline field c0' = true
    end.
Proof.
  intros Hen Htd Hcalcs Hfield.
  rewrite (offload_enters E enabled field ns w d c0 rest v Hen Htd Hcalcs Hfield).
  rewrite (gridfs_move_run E field ns w d c0 rest v Htd Hcalcs Hfield).
  assert (Hunchanged : forall w1 : World, task_doc w1 = task_doc w ->
            getitem_str (task_doc w1) "calcs_reversed" = Ok (PList (PDict c0 :: rest)) /\
            c0 = c0 /\ has_inline field c0 = true).
  { intros w1 ->. rewrite Htd. cbn [getitem_str]. rewrite Hcalcs. unfold has_inline, has_key. rewrite Hfield. auto. }
  destruct (json_dumps_monty E v) as [payload|e]; [|exists c0; by apply Hunchanged].
  cbv zeta. destruct (db_insert_gridfs E payload ns (events w)) as [[gfs_id ct]|e];
    [|exists c0; by apply Hunchanged].
  exists (delete field (<[field +:+ "_fs_id" := gfs_id]>
            (<[field +:+ "_compression" := ct]> c0))).
  cbn [fst snd task_doc].
  split; [cbn [getitem_str]; by rewrite lookup_insert_eq|].
  assert (Hin : has_inline field
            (delete field (<[field +:+ "_fs_id" := gfs_id]>
               (<[field +:+ "_compression" := ct]> c0))) = false).
  { unfold has_inline, has_key. by rewrite lookup_delete_eq. }
  assert (Href : has_reference field
            (delete field (<[field +:+ "_fs_id" := gfs_id]>
               (<[field +:+ "_compression" := ct]> c0))) = true).
  { unfold has_reference, has_key.
    rewrite !lookup_delete_ne by (apply not_eq_sym, append_suffix_ne; discriminate).
    rewrite lookup_insert_eq.
    destruct (decide (field +:+ "_fs_id" = field +:+ "_compression")) as [Heq|Hne].
    - rewrite <- Heq, lookup_insert_eq. reflexivity.
    - rewrite lookup_insert_ne by exact Hne. rewrite lookup_insert_eq. reflexivity. }
  rewrite Hin, Href. auto.
Qed.

Lemma C1_inline_xor_reference_witness :
  exists c0',
    getitem_str
      (task_doc (offload (demo_env PNone) (PBool true) "dos" "dos_fs"
                   (start (PDict doc_with_dos))).2) "calcs_reversed"
      = Ok (PList [PDict c0'; PDict ∅]) /\
    has_inline "dos" c0' = false /\ has_reference "dos" c0' = true.
Proof.
  destruct (C1_inline_xor_reference (demo_env PNone) (PBool true) "dos" "dos_fs"
              (start (PDict doc_with_dos)) doc_with_dos calc_with_dos [PDict ∅] dos_payload
              eq_refl eq_refl eq_refl eq_refl) as (c0' & Hc & H).
  exists c0'. split; [exact Hc|]. destruct H as (Hin & Href & _). split; assumption.
Defined.

(** C5: an [offload] that raises, whether in the serialization or in the
    GridFS write, leaves the task document as it was; and a document that
    was changed was changed after GridFS had returned its pair. *)
Theorem C5_failed_offload_leaves_document (E : Env) (enabled : pyval) (field ns : string)
    (w w' : World) (r : result unit) :
  offload E enabled field ns w = (r, w') ->
  match r with
  | Raise _ => task_doc w' = task_doc w
  | Ok _ =>
      w' = w \/
      exists payload ref,
        db_insert_gridfs E payload ns (events w) = Ok ref /\
        events w' = (events w ++ [EvInsertGridfs payload ns])%list
  end.
Proof.
  intros Hrun. destruct (offload_cases E enabled field ns w) as [[r0 Hstop]|Hblock].
  - rewrite Hstop in Hrun. injection Hrun as -> ->. destruct r; auto.
  - rewrite Hblock in Hrun. destruct r as [[]|e].
    + right. by apply (gridfs_move_Ok E field ns w w').
    + by apply (gridfs_move_Raise E field ns w w' e).
Qed.

Lemma C5_failed_offload_leaves_document_witness :
  (offload (gridfs_down_env PNone) (PBool true) "dos" "dos_fs" (start (PDict doc_with_dos))).1
    = Raise (External "gridfs" "connection lost") /\
  task_doc (offload (gridfs_down_env PNone) (PBool true) "dos" "dos_fs"
              (start (PDict doc_with_dos))).2 = PDict doc_with_dos.
Proof.
  split; [reflexivity|].
  exact (C5_failed_offload_leaves_document (gridfs_down_env PNone) (PBool true) "dos" "dos_fs"
           (start (PDict doc_with_dos)) _ (Raise (External "gridfs" "connection lost"))
           eq_refl).
Defined.

(** C6 as stated fails: with [calcs_reversed] an empty list the lookup of
    element [0] on line 93 raises [IndexError]. *)
Lemma C6_empty_calcs_raises_IndexError :
  offload (demo_env PNone) (PBool true) "dos" "dos_fs" (start (PDict doc_empty_calcs))
    = (Raise IndexError, start (PDict doc_empty_calcs)) /\
  offload (demo_env PNone) (PBool true) "dos" "dos_fs" (start (PDict doc_empty_calcs))
    <> (Ok tt, start (PDict doc_empty_calcs)).
Proof. split; [reflexivity|discriminate]. Qed.

(** C6, amended: on a document without [calcs_reversed], or with an empty
    one, [offload] of an enabled field leaves the document as it is and
    calls nothing; without the key it returns, with the empty list it
    raises [IndexError]. *)
Theorem C6_missing_or_empty_calcs (E : Env) (enabled : pyval) (field ns : string)
    (w : World) (d : gmap string pyval) :
  truthy enabled = true ->
  task_doc w = PDict d ->
  d !! "calcs_reversed" = None \/ d !! "calcs_reversed" = Some (PList []) ->
  offload E enabled field ns w =
  (match d !! "calcs_reversed" with None => Ok tt | Some _ => Raise IndexError end, w).
Proof.
  intros Hen Htd Hcalcs. rewrite offload_run, Hen, Htd. cbn [contains_str].
  destruct Hcalcs as [Hnone|Hempty].
  - rewrite Hnone. reflexivity.
  - rewrite Hempty. unfold calc0_contains. cbn [getitem_str]. rewrite Hempty. reflexivity.
Qed.

Lemma C6_missing_or_empty_calcs_witness :
  offload (demo_env PNone) (PBool true) "bandstructure" "bandstructure_fs"
    (start (PDict doc_no_calcs)) = (Ok tt, start (PDict doc_no_calcs)).
Proof.
  exact (C6_missing_or_empty_calcs (demo_env PNone) (PBool true) "bandstructure"
           "bandstructure_fs" (start (PDict doc_no_calcs)) doc_no_calcs
           eq_refl eq_refl (or_introl eq_refl)).
Defined.

(** ** Parameters that are not read *)

Section Agree.

Variables self1 self2 : gmap string pyval.

(** The two tasks carry the same value, or none, under every key but
    [options], [additional_fields] and [drone], and their drones are
    instances of the same class. *)
Hypothesis Hagree :
  forall k : string,
    k <> "options" -> k <> "additional_fields" -> k <> "drone" -> self1 !! k = self2 !! k.
Hypothesis Hclass : class_name <$> self1 !! "drone" = class_name <$> self2 !! "drone".

Lemma scan_calc_locs_agree (docs : list LocationRecord) (calc_dir : pyval) :
  scan_calc_locs self1 docs calc_dir = scan_calc_locs self2 docs calc_dir.
Proof.
  induction docs as [|doc docs IH]; [reflexivity|].
  cbn [scan_calc_locs]. unfold self_getitem.
  rewrite (Hagree "calc_loc_name") by discriminate. rewrite IH. reflexivity.
Qed.

Lemma get_calc_dir_agree (cwd : string) (fw_spec : FwSpec) :
  get_calc_dir cwd self1 fw_spec = get_calc_dir cwd self2 fw_spec.
Proof.
  unfold get_calc_dir, self_get, self_getitem.
  rewrite (Hagree "calc_dir") by discriminate.
  rewrite (Hagree "calc_loc") by discriminate.
  destruct (self2 !! "calc_dir"); [reflexivity|].
  destruct (truthy _); [|reflexivity].
  destruct (self2 !! "calc_loc") as [calc_loc|]; [|reflexivity].
  cbn [mbind result_bind]. destruct (is_string calc_loc); [|reflexivity].
  destruct (fw_calc_locs fw_spec) as [locs|e]; [|reflexivity].
  cbn [mbind result_bind]. apply scan_calc_locs_agree.
Qed.

Lemma ToDbTask_run_task_agree (E : Env) (fw_spec : FwSpec) (w : World) :
  ToDbTask_run_task E self1 fw_spec w = ToDbTask_run_task E self2 fw_spec w.
Proof.
  unfold ToDbTask_run_task, self_get, self_getitem, mbind, M_bind, lift.
  rewrite get_calc_dir_agree.
  rewrite (Hagree "db_file") by discriminate.
  destruct (get_calc_dir (getcwd E) self2 fw_spec) as [calc_dir|e]; [|reflexivity].
  destruct (self1 !! "drone") as [passed1|], (self2 !! "drone") as [passed2|];
    try discriminate; [|reflexivity].
  injection Hclass as Hcls. cbn beta iota. rewrite Hcls. reflexivity.
Qed.

End Agree.

(** C9: two [ToDbTask]s that differ at most in [options] and
    [additional_fields], and in their drone instances as long as these are
    of one class, run alike: same result, same final document, same calls,
    in every world and with every collaborator.  Neither parameter
    reaches the drone: the one that assimilates is built by [class_call],
    without arguments, from the class name of the instance passed. *)
Theorem C9_options_and_additional_fields_unread (E : Env) (self1 self2 : gmap string pyval)
    (fw_spec : FwSpec) (w : World) :
  (forall k : string,
     k <> "options" -> k <> "additional_fields" -> k <> "drone" -> self1 !! k = self2 !! k) ->
  class_name <$> self1 !! "drone" = class_name <$> self2 !! "drone" ->
  ToDbTask_run_task E self1 fw_spec w = ToDbTask_run_task E self2 fw_spec w.
Proof.
  intros Hagree Hclass. by apply ToDbTask_run_task_agree.
Qed.

Lemma C9_options_and_additional_fields_unread_witness :
  ToDbTask_run_task (demo_env (PDict doc_with_dos))
    (<["options" := PDict {["parse_dos" := PBool true]}]>
       (<["additional_fields" := PDict {["tag" := PStr "a"]}]>
          {["drone" := PObj "VaspDrone" {["parse_dos" := PBool true]}]}))
    no_calc_locs (start PNone)
  = ToDbTask_run_task (demo_env (PDict doc_with_dos))
      {["drone" := PObj "VaspDrone" ∅]} no_calc_locs (start PNone).
Proof.
  apply C9_options_and_additional_fields_unread.
  - intros k Hopt Hadd Hdrone. rewrite !lookup_insert_ne by congruence.
    rewrite !lookup_singleton_ne by congruence. reflexivity.
  - reflexivity.
Defined.

(** ** Whole runs *)

Lemma report_run (w : World) :
  report w =
  match dict_get (task_doc w) "task_id" PNone with
  | Raise e => (Raise e, w)
  | Ok task_id =>
      match getitem_str (task_doc w) "state" with
      | Raise e => (Raise e, w)
      | Ok state =>
          (Ok {| stored_data := {["task_id" := task_id]};
                 defuse_children := ne_str state "successful" |}, w)
      end
  end.
Proof.
  unfold report, mbind, M_bind, get_task_doc, lift, mret, M_ret.
  destruct (dict_get _ _ _); [|reflexivity].
  destruct (getitem_str _ _); reflexivity.
Qed.

(** What a returned action says about the document it was built from. *)
Lemma report_Ok (w w' : World) (a : FWAction) :
  report w = (Ok a, w') ->
  w' = w /\
  exists d state,
    task_doc w = PDict d /\ d !! "state" = Some state /\
    a = {| stored_data := {["task_id" := default PNone (d !! "task_id")]};
           defuse_children := ne_str state "successful" |}.
Proof.
  rewrite report_run. destruct (task_doc w) as [| | | | |d|] eqn:Htd; try discriminate.
  cbn [dict_get getitem_str]. destruct (d !! "state") as [state|] eqn:Hstate; [|discriminate].
  intros [= <- <-]. split; [reflexivity|]. exists d, state. auto.
Qed.

Lemma lift_Ok {A : Type} (r : result A) (w w' : World) (a : A) :
  lift r w = (Ok a, w') -> r = Ok a /\ w' = w.
Proof. unfold lift. by intros [= -> <-]. Qed.

Lemma call_Ok {A : Type} (ev : event) (oracle : list event -> result A) (w w' : World) (a : A) :
  call ev oracle w = (Ok a, w') ->
  oracle (events w) = Ok a /\ task_doc w' = task_doc w /\ events w' = (events w ++ [ev])%list.
Proof. unfold call. by intros [= -> <-]. Qed.

Lemma set_task_doc_Ok (d : pyval) (w w' : World) (u : unit) :
  set_task_doc d w = (Ok u, w') -> task_doc w' = d /\ events w' = events w.
Proof. unfold set_task_doc. by intros [= _ <-]. Qed.

(** Every run that returns ends in [report]; [db_file] is what [env_chk]
    resolved, [w0] the world in which the document was persisted and [w1]
    the one it was persisted into. *)
Lemma run_task_Ok (E : Env) (cls : firetask) (self : gmap string pyval) (fw_spec : FwSpec)
    (w w' : World) (a : FWAction) :
  run_task E cls self fw_spec w = (Ok a, w') ->
  exists db_file w0 w1,
    env_chk E (self_get self "db_file") fw_spec = Ok db_file /\
    report w1 = (Ok a, w') /\
    if truthy db_file
    then insert_task_doc E w0 = (Ok tt, w1)
    else write_task_json E w0 = (Ok tt, w1) /\
         exists drone calc_dir tr, assimilate E drone calc_dir tr = Ok (task_doc w0).
Proof.
  intros H. destruct cls; cbn [run_task] in H.
  - unfold VaspToDbTask_run_task in H.
    apply bind_Ok in H as (calc_dir & w1 & _ & H).
    apply bind_Ok in H as ([] & w2 & _ & H).
    apply bind_Ok in H as (db_file & w3 & Henv & H). apply lift_Ok in Henv as [Henv _].
    apply bind_Ok in H as ([] & w4 & _ & H). cbv zeta in H.
    apply bind_Ok in H as (drone & w5 & _ & H).
    apply bind_Ok in H as (d & w6 & Hd & H). apply call_Ok in Hd as (Hd & _ & _).
    apply bind_Ok in H as ([] & w7 & Hset & H). apply set_task_doc_Ok in Hset as [Hset _].
    apply bind_Ok in H as ([] & w8 & Hpersist & H).
    exists db_file. destruct (truthy db_file); cbn [negb] in Hpersist.
    + apply bind_Ok in Hpersist as ([] & w9 & _ & Hpersist).
      apply bind_Ok in Hpersist as ([] & w10 & _ & Hpersist).
      apply bind_Ok in Hpersist as ([] & w11 & _ & Hpersist).
      apply bind_Ok in Hpersist as ([] & w12 & _ & Hpersist).
      exists w12, w8. auto.
    + exists w7, w8. rewrite Hset. eauto 10.
  - unfold ToDbTask_run_task in H.
    apply bind_Ok in H as (calc_dir & w1 & _ & H).
    apply bind_Ok in H as (passed & w2 & _ & H).
    apply bind_Ok in H as ([] & w3 & _ & H).
    apply bind_Ok in H as (db_file & w4 & Henv & H). apply lift_Ok in Henv as [Henv _].
    apply bind_Ok in H as ([] & w5 & _ & H).
    apply bind_Ok in H as (passed' & w6 & _ & H).
    apply bind_Ok in H as (drone & w7 & _ & H).
    apply bind_Ok in H as (d & w8 & Hd & H). apply call_Ok in Hd as (Hd & _ & _).
    apply bind_Ok in H as ([] & w9 & Hset & H). apply set_task_doc_Ok in Hset as [Hset _].
    apply bind_Ok in H as ([] & w10 & Hpersist & H).
    exists db_file. destruct (truthy db_file); cbn [negb] in Hpersist.
    + apply bind_Ok in Hpersist as ([] & w11 & _ & Hpersist).
      exists w11, w10. auto.
    + exists w9, w10. rewrite Hset. eauto 10.
Qed.

Lemma insert_task_doc_Ok (E : Env) (w w' : World) :
  insert_task_doc E w = (Ok tt, w') ->
  exists t_id, db_insert E (task_doc w) (events w) = (task_doc w', Ok t_id).
Proof.
  unfold insert_task_doc. intros H.
  apply bind_Ok in H as (t_id & w1 & Hins & H).
  destruct (db_insert E (task_doc w) (events w)) as [d r] eqn:Hdb.
  injection Hins as -> <-. unfold logger_info in H. injection H as <-.
  exists t_id. reflexivity.
Qed.

Lemma write_task_json_run (E : Env) (w : World) :
  write_task_json E w =
  let opened := {| task_doc := task_doc w;
                   events := events w ++ [EvOpen "task.json" "w"] |} in
  match open_file E "task.json" "w" (events w) with
  | Raise e => (Raise e, opened)
  | Ok _ =>
      match json_dumps E (task_doc w) with
      | Raise e => (Raise e, opened)
      | Ok data =>
          (file_write E "task.json" data (events opened),
           {| task_doc := task_doc w;
              events := events opened ++ [EvWrite "task.json" data] |})
      end
  end.
Proof.
  unfold write_task_json, mbind, M_bind, call, get_task_doc, lift. cbn [task_doc events].
  destruct (open_file E _ _ _); [|reflexivity].
  destruct (json_dumps E _); reflexivity.
Qed.

(** C3: in every run that returns, of either task and on either branch
    of [if not db_file], the document has a [state] and
    [defuse_children] is [state != "successful"]: the run counts as a
    success exactly when the document's own state says so. *)
Theorem C3_defuse_children_from_state (E : Env) (cls : firetask) (self : gmap string pyval)
    (fw_spec : FwSpec) (w w' : World) (a : FWAction) :
  run_task E cls self fw_spec w = (Ok a, w') ->
  exists state,
    getitem_str (task_doc w') "state" = Ok state /\
    defuse_children a = negb (eq_str state "successful").
Proof.
  intros H. apply run_task_Ok in H as (db_file & w0 & w1 & _ & Hreport & _).
  apply report_Ok in Hreport as (-> & d & state & Htd & Hstate & ->).
  exists state. rewrite Htd. cbn [getitem_str defuse_children]. rewrite Hstate. auto.
Qed.

Lemma C3_defuse_children_from_state_witness :
  exists state,
    getitem_str (PDict doc_no_calcs) "state" = Ok state /\
    true = negb (eq_str state "successful").
Proof.
  exact (C3_defuse_children_from_state (demo_env (PDict doc_no_calcs)) VaspToDbTask ∅
           no_calc_locs (start PNone)
           (run_task (demo_env (PDict doc_no_calcs)) VaspToDbTask ∅ no_calc_locs
              (start PNone)).2
           {| stored_data := {["task_id" := PNone]}; defuse_children := true |}
           eq_refl).
Defined.

(** A run of [VaspToDbTask] with a database and [parse_dos]: the [dos]
    of the first calculation goes to GridFS, the action reports the id
    that [db.insert] recorded, and the children are not defused. *)
Example run_with_dos_offloaded :
  let run := run_task (demo_env (PDict doc_with_dos)) VaspToDbTask
               (<["db_file" := PStr "db.json"]> {["parse_dos" := PBool true]})
               no_calc_locs (start PNone) in
  run.1 = Ok {| stored_data := {["task_id" := PInt 1]}; defuse_children := false |} /\
  calc0_getitem "dos" (task_doc run.2) = Raise (KeyError (PStr "dos")) /\
  calc0_getitem "dos_fs_id" (task_doc run.2) = Ok (PStr "5f1e") /\
  calc0_getitem "dos_compression" (task_doc run.2) = Ok (PStr "zlib") /\
  List.filter is_store_call (events run.2) =
    [EvGetSettings (PStr "db.json");
     EvMMDb (PStr "localhost") (PInt 27017) (PStr "vasp") PNone PNone (PStr "tasks");
     EvInsertGridfs "[]" "dos_fs";
     EvInsert (PDict (<["calcs_reversed" :=
                         PList [PDict (delete "dos" (<["dos_fs_id" := PStr "5f1e"]>
                                         (<["dos_compression" := PStr "zlib"]> calc_with_dos)));
                                PDict ∅]]> doc_with_dos))].
Proof. repeat split. Qed.

(** C4 as stated fails: without [db_file] nothing is inserted, and yet
    the action carries the [task_id] that the drone's document has. *)
Lemma C4_task_id_reported_without_store :
  (run_task (demo_env (PDict doc_with_task_id)) VaspToDbTask ∅ no_calc_locs (start PNone)).1
    = Ok {| stored_data := {["task_id" := PInt 7]}; defuse_children := false |} /\
  List.filter is_store_call
    (events (run_task (demo_env (PDict doc_with_task_id)) VaspToDbTask ∅ no_calc_locs
               (start PNone)).2) = [].
Proof. split; reflexivity. Qed.

(** C4, amended: the [task_id] a run reports is the [task_id] entry of the
    task document as it is when the run ends, [None] when there is no such
    entry, whatever the state.  With a [db_file] that document is the one
    [db.insert] left, so the identifier [db.insert] returned is reported
    whenever it was recorded there; without a [db_file] it is the document
    the drone returned. *)
Theorem C4_reported_task_id (E : Env) (cls : firetask) (self : gmap string pyval)
    (fw_spec : FwSpec) (w w' : World) (a : FWAction) :
  run_task E cls self fw_spec w = (Ok a, w') ->
  exists d db_file,
    task_doc w' = PDict d /\
    stored_data a = {["task_id" := default PNone (d !! "task_id")]} /\
    env_chk E (self_get self "db_file") fw_spec = Ok db_file /\
    if truthy db_file
    then exists doc tr t_id,
           db_insert E doc tr = (PDict d, Ok t_id) /\
           (d !! "task_id" = Some t_id -> stored_data a = {["task_id" := t_id]})
    else exists drone calc_dir tr, assimilate E drone calc_dir tr = Ok (PDict d).
Proof.
  intros H. apply run_task_Ok in H as (db_file & w0 & w1 & Henv & Hreport & Hpersist).
  apply report_Ok in Hreport as (-> & d & state & Htd & Hstate & ->).
  exists d, db_file. cbn [stored_data]. do 3 (split; [done|]).
  destruct (truthy db_file).
  - apply insert_task_doc_Ok in Hpersist as (t_id & Hins). rewrite Htd in Hins.
    exists (task_doc w0), (events w0), t_id. split; [exact Hins|]. by intros ->.
  - destruct Hpersist as (Hwrite & drone & calc_dir & tr & Hdrone).
    rewrite write_task_json_run in Hwrite. cbv zeta in Hwrite.
    destruct (open_file E _ _ _); [|discriminate].
    destruct (json_dumps E _); [|discriminate].
    injection Hwrite as _ <-. cbn [task_doc] in Htd. rewrite Htd in Hdrone. eauto.
Qed.

Lemma C4_reported_task_id_witness :
  exists d db_file,
    PDict (<["task_id" := PInt 1]> doc_with_dos) = PDict d /\
    ({["task_id" := PInt 1]} : gmap string pyval) = {["task_id" := default PNone (d !! "task_id")]} /\
    Ok (PStr "db.json") = Ok db_file /\
    if truthy db_file
    then exists doc tr t_id,
           db_insert (demo_env (PDict doc_with_dos)) doc tr = (PDict d, Ok t_id) /\
           (d !! "task_id" = Some t_id ->
            ({["task_id" := PInt 1]} : gmap string pyval) = {["task_id" := t_id]})
    else exists drone calc_dir tr,
           assimilate (demo_env (PDict doc_with_dos)) drone calc_dir tr = Ok (PDict d).
Proof.
  exact (C4_reported_task_id (demo_env (PDict doc_with_dos)) VaspToDbTask
           {["db_file" := PStr "db.json"]} no_calc_locs (start PNone)
           (run_task (demo_env (PDict doc_with_dos)) VaspToDbTask
              {["db_file" := PStr "db.json"]} no_calc_locs (start PNone)).2
           {| stored_data := {["task_id" := PInt 1]}; defuse_children := false |}
           eq_refl).
Defined.





(** * Further properties *)

(** ** Resolution of the calculation directory, continued *)

Lemma scan_calc_locs_ext (self1 self2 : gmap string pyval) (docs : list LocationRecord)
    (calc_dir : pyval) :
  self1 !! "calc_loc_name" = self2 !! "calc_loc_name" ->
  scan_calc_locs self1 docs calc_dir = scan_calc_locs self2 docs calc_dir.
Proof.
  intros Hname. induction docs as [|doc docs IH]; [reflexivity|].
  cbn [scan_calc_locs]. unfold self_getitem. rewrite Hname, IH. reflexivity.
Qed.

Lemma truthy_PStr (n : string) : n <> "" -> truthy (PStr n) = true.
Proof.
  intros Hn. cbn [truthy]. destruct (String.eqb n "") eqn:He; [|reflexivity].
  apply String.eqb_eq in He. contradiction.
Qed.

(** X1: the string given under [calc_loc] is not what the records are
    compared with: two tasks that differ only in which non-empty string
    they carry there resolve to the same directory, or raise the same
    exception, on every history. *)
Theorem X1_calc_loc_string_not_compared (cwd : string) (self : gmap string pyval)
    (fw_spec : FwSpec) (n1 n2 : string) :
  n1 <> "" -> n2 <> "" ->
  get_calc_dir cwd (<["calc_loc" := PStr n1]> self) fw_spec
  = get_calc_dir cwd (<["calc_loc" := PStr n2]> self) fw_spec.
Proof.
  intros H1 H2. unfold get_calc_dir, self_get, self_getitem.
  rewrite !(lookup_insert_ne _ "calc_loc" "calc_dir") by discriminate.
  destruct (self !! "calc_dir"); [reflexivity|].
  rewrite !lookup_insert_eq. cbn [from_option id]. rewrite !truthy_PStr by assumption.
  cbn [mbind result_bind is_string].
  destruct (fw_calc_locs fw_spec) as [locs|e]; [|reflexivity].
  cbn [mbind result_bind]. apply scan_calc_locs_ext.
  rewrite !lookup_insert_ne by discriminate. reflexivity.
Qed.

Lemma X1_calc_loc_string_not_compared_witness :
  get_calc_dir "/cwd" (<["calc_loc" := PStr "relax"]> {["calc_loc_name" := PStr "static"]})
    (history two_locs)
  = get_calc_dir "/cwd" (<["calc_loc" := PStr "static"]> {["calc_loc_name" := PStr "static"]})
      (history two_locs).
Proof.
  apply X1_calc_loc_string_not_compared; discriminate.
Defined.

Lemma find_app_None {A : Type} (p : A -> bool) (l1 l2 : list A) :
  List.find p l1 = None -> List.find p (l1 ++ l2) = List.find p l2.
Proof.
  induction l1 as [|x l1 IH]; [reflexivity|]. simpl.
  destruct (p x); [discriminate|exact IH].
Qed.

Lemma find_none_iff {A : Type} (p : A -> bool) (l : list A) :
  (forall x, x ∈ l -> p x = false) -> List.find p l = None.
Proof.
  induction l as [|x l IH]; intros H; [reflexivity|]. simpl.
  rewrite (H x) by apply list_elem_of_here. apply IH. intros y Hy.
  apply H. by apply list_elem_of_further.
Qed.

(** The record found by the reversed scan is the one at the greatest
    index among those of the wanted name. *)
Lemma most_recent_at (n : string) (locs : list LocationRecord) (i : nat) (doc : LocationRecord) :
  locs !! i = Some doc ->
  name doc = n ->
  (forall j doc', (i < j)%nat -> locs !! j = Some doc' -> name doc' <> n) ->
  most_recent n locs = Some doc.
Proof.
  intros Hi Hn Hlater. unfold most_recent.
  rewrite <- (take_drop_middle locs i doc Hi).
  rewrite rev_app_distr. cbn [rev]. rewrite <- app_assoc.
  rewrite find_app_None.
  - cbn [app List.find]. rewrite Hn, String.eqb_refl. reflexivity.
  - apply find_none_iff. intros x Hx.
    apply list_elem_of_In, in_rev, list_elem_of_In, list_elem_of_lookup in Hx as [k Hk].
    rewrite lookup_drop in Hk.
    apply String.eqb_neq. intros Heq.
    apply (Hlater (S i + k)%nat x); [lia|exact Hk|congruence].
Qed.

(** X2: with a non-empty string under [calc_loc] and the name [n] under
    [calc_loc_name], the directory is the path of the record named [n]
    that comes last in [calc_locs]; earlier records of that name, and
    later records of other names, do not matter. *)
Theorem X2_named_selects_latest_match (cwd : string) (self : gmap string pyval)
    (fw_spec : FwSpec) (selector n : string) (locs : list LocationRecord)
    (i : nat) (doc : LocationRecord) :
  self !! "calc_dir" = None ->
  self !! "calc_loc" = Some (PStr selector) ->
  selector <> "" ->
  self !! "calc_loc_name" = Some (PStr n) ->
  calc_locs fw_spec = Some locs ->
  locs !! i = Some doc ->
  name doc = n ->
  (forall j doc', (i < j)%nat -> locs !! j = Some doc' -> name doc' <> n) ->
  get_calc_dir cwd self fw_spec = Ok (PStr (path doc)).
Proof.
  intros Hdir Hloc Hsel Hname Hlocs Hi Hn Hlater.
  unfold get_calc_dir, self_get, self_getitem, fw_calc_locs.
  rewrite Hdir, Hloc, Hlocs. cbn [from_option id]. rewrite truthy_PStr by assumption.
  cbn [mbind result_bind is_string].
  rewrite (scan_calc_locs_find self n) by exact Hname.
  pose proof (most_recent_at n locs i doc Hi Hn Hlater) as Hfind.
  unfold most_recent in Hfind. rewrite Hfind. reflexivity.
Qed.

Lemma X2_named_selects_latest_match_witness :
  get_calc_dir "/cwd" (<["calc_loc" := PStr "x"]> {["calc_loc_name" := PStr "relax"]})
    (history two_locs) = Ok (PStr "/scratch/c").
Proof.
  apply (X2_named_selects_latest_match "/cwd" _ (history two_locs) "x" "relax" two_locs 2%nat
           {| name := "relax"; path := "/scratch/c" |});
    try reflexivity; try discriminate.
  intros j doc' Hj Hdoc.
  destruct j as [|[|[|[|j]]]]; try lia.
  - injection Hdoc as <-. discriminate.
  - discriminate.
Defined.

Lemma scan_calc_locs_no_match (self : gmap string pyval) (wanted : pyval)
    (docs : list LocationRecord) (calc_dir : pyval) :
  self !! "calc_loc_name" = Some wanted ->
  (forall doc, doc ∈ docs -> eq_str wanted (name doc) = false) ->
  scan_calc_locs self docs calc_dir = Ok calc_dir.
Proof.
  intros Hname. induction docs as [|doc docs IH]; intros Hno; [reflexivity|].
  cbn [scan_calc_locs]. unfold self_getitem. rewrite Hname. cbn [mbind result_bind].
  rewrite (Hno doc) by apply list_elem_of_here.
  apply IH. intros doc' Hdoc'. apply Hno. by apply list_elem_of_further.
Qed.

(** X3: a string selector that finds nothing is not an error.  When the
    history is empty, or when no record bears the value stored under
    [calc_loc_name], the loop ends without a [break] and the directory
    stays the current working directory. *)
Theorem X3_named_without_match_falls_back (cwd : string) (self : gmap string pyval)
    (fw_spec : FwSpec) (selector : string) (locs : list LocationRecord) :
  self !! "calc_dir" = None ->
  self !! "calc_loc" = Some (PStr selector) ->
  selector <> "" ->
  calc_locs fw_spec = Some locs ->
  locs = [] \/
  (exists wanted, self !! "calc_loc_name" = Some wanted /\
                  forall doc, doc ∈ locs -> eq_str wanted (name doc) = false) ->
  get_calc_dir cwd self fw_spec = Ok (PStr cwd).
Proof.
  intros Hdir Hloc Hsel Hlocs Hcase.
  unfold get_calc_dir, self_get, self_getitem, fw_calc_locs.
  rewrite Hdir, Hloc, Hlocs. cbn [from_option id]. rewrite truthy_PStr by assumption.
  cbn [mbind result_bind is_string].
  destruct Hcase as [->|(wanted & Hname & Hno)]; [reflexivity|].
  apply (scan_calc_locs_no_match self wanted); [exact Hname|].
  intros doc Hdoc. apply Hno.
  by apply list_elem_of_In, in_rev, list_elem_of_In in Hdoc.
Qed.

Lemma X3_named_without_match_falls_back_witness :
  get_calc_dir "/cwd" (<["calc_loc" := PStr "nscf"]> {["calc_loc_name" := PStr "nscf"]})
    (history two_locs) = Ok (PStr "/cwd").
Proof.
  apply (X3_named_without_match_falls_back "/cwd" _ (history two_locs) "nscf" two_locs);
    try reflexivity; try discriminate.
  right. exists (PStr "nscf"). split; [reflexivity|].
  intros doc Hdoc. apply list_elem_of_In in Hdoc. simpl in Hdoc.
  destruct Hdoc as [<-|[<-|[<-|[<-|[]]]]]; reflexivity.
Defined.

(** X4: a true [calc_loc], string or not, needs [fw_spec["calc_locs"]]:
    without that key the resolution raises [KeyError] for it. *)
Theorem X4_calc_loc_without_calc_locs (cwd : string) (self : gmap string pyval)
    (fw_spec : FwSpec) (calc_loc : pyval) :
  self !! "calc_dir" = None ->
  self !! "calc_loc" = Some calc_loc ->
  truthy calc_loc = true ->
  calc_locs fw_spec = None ->
  get_calc_dir cwd self fw_spec = Raise (KeyError (PStr "calc_locs")).
Proof.
  intros Hdir Hloc Htrue Hnone.
  unfold get_calc_dir, self_get, self_getitem, last_calc_loc_path, fw_calc_locs.
  rewrite Hdir, Hloc, Hnone. cbn [from_option id]. rewrite Htrue.
  cbn [mbind result_bind]. destruct (is_string calc_loc); reflexivity.
Qed.

Lemma X4_calc_loc_without_calc_locs_witness :
  get_calc_dir "/cwd" {["calc_loc" := PBool true]} no_calc_locs
  = Raise (KeyError (PStr "calc_locs")).
Proof.
  exact (X4_calc_loc_without_calc_locs "/cwd" {["calc_loc" := PBool true]} no_calc_locs
           (PBool true) eq_refl eq_refl eq_refl eq_refl).
Defined.

(** X5: [fw_spec] is consulted only when there is no [calc_dir] and
    [calc_loc] is true.  With a [calc_dir], whatever its value, that value
    is the directory; with none and a [calc_loc] that is absent or false
    ([None], [False], [0], the empty string), it is the current working
    directory.  Neither case can raise. *)
Theorem X5_calc_dir_first_cwd_last (cwd : string) (self : gmap string pyval)
    (fw_spec : FwSpec) :
  is_Some (self !! "calc_dir") \/ truthy (self_get self "calc_loc") = false ->
  get_calc_dir cwd self fw_spec = Ok (default (PStr cwd) (self !! "calc_dir")).
Proof.
  intros Hcase. unfold get_calc_dir.
  destruct (self !! "calc_dir") as [p|]; [reflexivity|].
  destruct Hcase as [[p Hp]|Hfalse]; [discriminate|].
  rewrite Hfalse. reflexivity.
Qed.

Lemma X5_calc_dir_first_cwd_last_witness :
  get_calc_dir "/cwd" (<["calc_dir" := PStr "/data/run1"]> {["calc_loc" := PBool true]})
    no_calc_locs = Ok (PStr "/data/run1") /\
  get_calc_dir "/cwd" {["calc_loc" := PStr ""]} no_calc_locs = Ok (PStr "/cwd").
Proof.
  split.
  - exact (X5_calc_dir_first_cwd_last "/cwd"
             (<["calc_dir" := PStr "/data/run1"]> {["calc_loc" := PBool true]}) no_calc_locs
             (or_introl (mk_is_Some _ (PStr "/data/run1") eq_refl))).
  - exact (X5_calc_dir_first_cwd_last "/cwd" {["calc_loc" := PStr ""]} no_calc_locs
             (or_intror eq_refl)).
Defined.

(** ** Moving a field to GridFS, continued *)

Lemma append_inj_r (s a b : string) : s +:+ a = s +:+ b -> a = b.
Proof.
  induction s as [|c s IH]; simpl; [trivial|].
  intros Heq. apply IH. injection Heq as Heq. exact Heq.
Qed.

Lemma offload_skips (E : Env) (enabled : pyval) (field ns : string) (w : World) :
  truthy enabled = false \/
  (exists d c0 rest,
     task_doc w = PDict d /\
     d !! "calcs_reversed" = Some (PList (PDict c0 :: rest)) /\
     c0 !! field = None) ->
  offload E enabled field ns w = (Ok tt, w).
Proof.
  intros [Hoff|(d & c0 & rest & Htd & Hcalcs & Hfield)]; rewrite offload_run.
  - rewrite Hoff. reflexivity.
  - rewrite Htd. cbn [contains_str]. rewrite Hcalcs.
    rewrite (calc0_contains_dict d c0 rest Hcalcs), Hfield.
    destruct (truthy enabled); reflexivity.
Qed.

(** X6: [offload] does nothing at all, and raises nothing, when its flag
    is false, whatever the document is; and when the first calculation is
    a dictionary without the field. *)
Theorem X6_offload_skips (E : Env) (enabled : pyval) (field ns : string) (w : World) :
  truthy enabled = false \/
  (exists d c0 rest,
     task_doc w = PDict d /\
     d !! "calcs_reversed" = Some (PList (PDict c0 :: rest)) /\
     c0 !! field = None) ->
  offload E enabled field ns w = (Ok tt, w).
Proof. apply offload_skips. Qed.

Lemma X6_offload_skips_witness :
  offload (demo_env PNone) (PBool false) "dos" "dos_fs" (start (PStr "not a document"))
    = (Ok tt, start (PStr "not a document")) /\
  offload (demo_env PNone) (PStr "line") "bandstructure" "bandstructure_fs"
    (start (PDict doc_with_dos)) = (Ok tt, start (PDict doc_with_dos)).
Proof.
  split.
  - exact (X6_offload_skips (demo_env PNone) (PBool false) "dos" "dos_fs"
             (start (PStr "not a document")) (or_introl eq_refl)).
  - apply X6_offload_skips. right.
    exists doc_with_dos, calc_with_dos, [PDict ∅]. repeat split.
Defined.

(** X7: what a successful [offload] stores.  GridFS is called once, with
    [json.dumps] of the field's value and the given collection name, and
    the two reference keys hold what that call returned; the field itself
    is gone. *)
Theorem X7_offload_stores_gridfs_answer (E : Env) (enabled : pyval) (field ns : string)
    (w : World) (d c0 : gmap string pyval) (rest : list pyval) (v : pyval)
    (payload : string) (gfs_id compression_type : pyval) :
  truthy enabled = true ->
  task_doc w = PDict d ->
  d !! "calcs_reversed" = Some (PList (PDict c0 :: rest)) ->
  c0 !! field = Some v ->
  json_dumps_monty E v = Ok payload ->
  db_insert_gridfs E payload ns (events w) = Ok (gfs_id, compression_type) ->
  exists w',
    offload E enabled field ns w = (Ok tt, w') /\
    events w' = (events w ++ [EvInsertGridfs payload ns])%list /\
    calc0_getitem (field +:+ "_fs_id") (task_doc w') = Ok gfs_id /\
    calc0_getitem (field +:+ "_compression") (task_doc w') = Ok compression_type /\
    calc0_getitem field (task_doc w') = Raise (KeyError (PStr field)).
Proof.
  intros Hen Htd Hcalcs Hfield Hdumps Hgfs.
  rewrite (offload_enters E enabled field ns w d c0 rest v Hen Htd Hcalcs Hfield).
  rewrite (gridfs_move_run E field ns w d c0 rest v Htd Hcalcs Hfield).
  rewrite Hdumps. cbv zeta. rewrite Hgfs.
  eexists. split; [reflexivity|]. cbn [task_doc events]. split; [reflexivity|].
  rewrite !(calc0_getitem_dict _ _ rest (lookup_insert_eq _ _ _)).
  rewrite lookup_delete_eq.
  rewrite !lookup_delete_ne by (apply not_eq_sym, append_suffix_ne; discriminate).
  rewrite lookup_insert_eq.
  rewrite lookup_insert_ne by (intros Heq; apply append_inj_r in Heq; discriminate).
  rewrite lookup_insert_eq. auto.
Qed.

Lemma X7_offload_stores_gridfs_answer_witness :
  exists w',
    offload (demo_env PNone) (PBool true) "dos" "dos_fs" (start (PDict doc_with_dos))
      = (Ok tt, w') /\
    events w' = [EvInsertGridfs "[]" "dos_fs"] /\
    calc0_getitem "dos_fs_id" (task_doc w') = Ok (PStr "5f1e") /\
    calc0_getitem "dos_compression" (task_doc w') = Ok (PStr "zlib") /\
    calc0_getitem "dos" (task_doc w') = Raise (KeyError (PStr "dos")).
Proof.
  exact (X7_offload_stores_gridfs_answer (demo_env PNone) (PBool true) "dos" "dos_fs"
           (start (PDict doc_with_dos)) doc_with_dos calc_with_dos [PDict ∅] dos_payload
           "[]" (PStr "5f1e") (PStr "zlib") eq_refl eq_refl eq_refl eq_refl eq_refl eq_refl).
Defined.

(** After a block that returned, the first calculation is a dictionary
    without the field. *)
Lemma gridfs_move_Ok_doc (E : Env) (field ns : string) (w w' : World) :
  gridfs_move E field ns w = (Ok tt, w') ->
  exists d c0 rest,
    task_doc w' = PDict d /\
    d !! "calcs_reversed" = Some (PList (PDict c0 :: rest)) /\
    c0 !! field = None.
Proof.
  destruct (calc0_getitem field (task_doc w)) as [v|e0] eqn:Hv.
  - destruct (calc0_getitem_Ok _ _ _ Hv) as (d & c0 & rest & Htd & Hcalcs & Hfield).
    rewrite (gridfs_move_run E field ns w d c0 rest v Htd Hcalcs Hfield).
    destruct (json_dumps_monty E v) as [payload|e1]; [|discriminate].
    cbv zeta. destruct (db_insert_gridfs E payload ns (events w)) as [[gfs_id ct]|e1];
      [|discriminate].
    intros [= <-]. cbn [task_doc]. eexists _, _, rest.
    split; [reflexivity|]. split; [apply lookup_insert_eq|apply lookup_delete_eq].
  - unfold gridfs_move. rewrite bind_run. unfold get_task_doc at 1.
    rewrite bind_run. unfold lift at 1. rewrite Hv. discriminate.
Qed.

(** X8: [offload] is idempotent.  Running it a second time for the same
    field, on any document and with any collaborators, changes nothing
    more and calls GridFS no more: the two runs together are the first one
    alone. *)
Theorem X8_offload_twice_is_once (E : Env) (enabled : pyval) (field ns : string) (w : World) :
  (offload E enabled field ns ≫= fun _ => offload E enabled field ns) w
  = offload E enabled field ns w.
Proof.
  rewrite bind_run.
  destruct (offload_cases E enabled field ns w) as [[r Hstop]|Hblock].
  - rewrite Hstop. destruct r as [[]|e]; [exact Hstop|reflexivity].
  - rewrite Hblock.
    destruct (gridfs_move E field ns w) as [[[]|e] w'] eqn:Hmove; [|reflexivity].
    apply gridfs_move_Ok_doc in Hmove as Hdoc.
    apply offload_skips; right; exact Hdoc.
Qed.

(** X9: the two blocks of [VaspToDbTask] do not disturb each other.  On
    a first calculation holding both [dos] and [bandstructure], when both
    run and return, GridFS has been called twice, for [dos_fs] and then
    for [bandstructure_fs]; the calculation holds both reference pairs and
    neither field, and its other keys are as before. *)
Theorem X9_dos_then_bandstructure (E : Env) (parse_dos bandstructure_mode : pyval)
    (w w' : World) (d c0 : gmap string pyval) (rest : list pyval) (v_dos v_bs : pyval) :
  truthy parse_dos = true ->
  truthy bandstructure_mode = true ->
  task_doc w = PDict d ->
  d !! "calcs_reversed" = Some (PList (PDict c0 :: rest)) ->
  c0 !! "dos" = Some v_dos ->
  c0 !! "bandstructure" = Some v_bs ->
  (offload E parse_dos "dos" "dos_fs" ≫= fun _ =>
   offload E bandstructure_mode "bandstructure" "bandstructure_fs") w = (Ok tt, w') ->
  exists c0' payload_dos payload_bs,
    json_dumps_monty E v_dos = Ok payload_dos /\
    json_dumps_monty E v_bs = Ok payload_bs /\
    events w' = (events w ++ [EvInsertGridfs payload_dos "dos_fs";
                              EvInsertGridfs payload_bs "bandstructure_fs"])%list /\
    getitem_str (task_doc w') "calcs_reversed" = Ok (PList (PDict c0' :: rest)) /\
    has_inline "dos" c0' = false /\ has_inline "bandstructure" c0' = false /\
    has_reference "dos" c0' = true /\ has_reference "bandstructure" c0' = true /\
    forall k, k <> "dos" -> k <> "dos_fs_id" -> k <> "dos_compression" ->
              k <> "bandstructure" -> k <> "bandstructure_fs_id" ->
              k <> "bandstructure_compression" -> c0' !! k = c0 !! k.
Proof.
  intros Hdos Hbs Htd Hcalcs Hvdos Hvbs Hrun.
  apply bind_Ok in Hrun as ([] & w1 & Hfirst & Hsecond).
  rewrite (offload_enters E _ _ _ w d c0 rest v_dos Hdos Htd Hcalcs Hvdos) in Hfirst.
  rewrite (gridfs_move_run E _ _ w d c0 rest v_dos Htd Hcalcs Hvdos) in Hfirst.
  destruct (json_dumps_monty E v_dos) as [payload_dos|e]; [|discriminate].
  cbv zeta in Hfirst.
  destruct (db_insert_gridfs E payload_dos "dos_fs" (events w)) as [[id1 ct1]|e];
    [|discriminate].
  injection Hfirst as <-.
  set (c1 := delete "dos" (<["dos" +:+ "_fs_id" := id1]>
                             (<["dos" +:+ "_compression" := ct1]> c0))) in *.
  assert (Hvbs1 : c1 !! "bandstructure" = Some v_bs).
  { subst c1. rewrite lookup_delete_ne by discriminate.
    rewrite !lookup_insert_ne by discriminate. exact Hvbs. }
  match type of Hsecond with
  | offload _ _ _ _ ?x = _ => set (w1 := x) in *
  end.
  assert (Htd1 : task_doc w1 = PDict (<["calcs_reversed" := PList (PDict c1 :: rest)]> d))
    by reflexivity.
  rewrite (offload_enters E _ _ _ w1 _ c1 rest v_bs Hbs Htd1
             (lookup_insert_eq _ _ _) Hvbs1) in Hsecond.
  rewrite (gridfs_move_run E _ _ w1 _ c1 rest v_bs Htd1
             (lookup_insert_eq _ _ _) Hvbs1) in Hsecond.
  destruct (json_dumps_monty E v_bs) as [payload_bs|e]; [|discriminate].
  cbv zeta in Hsecond.
  destruct (db_insert_gridfs E payload_bs "bandstructure_fs" _) as [[id2 ct2]|e];
    [|discriminate].
  injection Hsecond as <-. subst w1. cbn [events task_doc getitem_str].
  eexists _, payload_dos, payload_bs.
  split; [reflexivity|]. split; [reflexivity|].
  split; [by rewrite <- app_assoc|].
  split; [by rewrite lookup_insert_eq|].
  subst c1. unfold has_inline, has_reference, has_key. cbn [String.append].
  repeat split.
  - by rewrite lookup_delete_ne, !lookup_insert_ne, lookup_delete_eq.
  - by rewrite lookup_delete_eq.
  - rewrite !(lookup_delete_ne _ "bandstructure"), !(lookup_insert_ne _ "bandstructure_fs_id"),
      !(lookup_insert_ne _ "bandstructure_compression"), !(lookup_delete_ne _ "dos") by done.
    rewrite lookup_insert_eq, (lookup_insert_ne _ "dos_fs_id") by done.
    by rewrite lookup_insert_eq.
  - rewrite !(lookup_delete_ne _ "bandstructure") by done.
    rewrite lookup_insert_eq, (lookup_insert_ne _ "bandstructure_fs_id") by done.
    by rewrite lookup_insert_eq.
  - intros k H1 H2 H3 H4 H5 H6.
    rewrite (lookup_delete_ne _ "bandstructure") by congruence.
    rewrite (lookup_insert_ne _ "bandstructure_fs_id") by congruence.
    rewrite (lookup_insert_ne _ "bandstructure_compression") by congruence.
    rewrite (lookup_delete_ne _ "dos") by congruence.
    rewrite (lookup_insert_ne _ "dos_fs_id") by congruence.
    rewrite (lookup_insert_ne _ "dos_compression") by congruence.
    reflexivity.
Qed.

Lemma X9_dos_then_bandstructure_witness :
  exists c0',
    getitem_str
      (task_doc ((offload (demo_env PNone) (PBool true) "dos" "dos_fs" ≫= fun _ =>
                  offload (demo_env PNone) (PStr "line") "bandstructure" "bandstructure_fs")
                   (start (PDict doc_with_both))).2) "calcs_reversed"
      = Ok (PList [PDict c0']) /\
    has_reference "dos" c0' = true /\ has_reference "bandstructure" c0' = true /\
    c0' !! "task" = Some (PStr "relax").
Proof.
  destruct (X9_dos_then_bandstructure (demo_env PNone) (PBool true) (PStr "line")
              (start (PDict doc_with_both)) _ doc_with_both calc_with_both [] dos_payload
              bs_payload eq_refl eq_refl eq_refl eq_refl eq_refl eq_refl eq_refl)
    as (c0' & p1 & p2 & _ & _ & _ & Hcalcs & _ & _ & Hdos & Hbs & Hframe).
  exists c0'. split; [exact Hcalcs|]. split; [exact Hdos|]. split; [exact Hbs|].
  rewrite Hframe by discriminate. reflexivity.
Defined.

(** ** Which calls a run can make *)

Section Appends.

Context {A : Type}.
Variable P : event -> bool.

Lemma appends_same (m : M A) :
  (forall w, events (m w).2 = events w) -> appends P m.
Proof. intros Hm w. exists []. by rewrite Hm, app_nil_r. Qed.

Lemma appends_ret (a : A) : appends P (mret a : M A).
Proof. by apply appends_same. Qed.

Lemma appends_lift (r : result A) : appends P (lift r).
Proof. by apply appends_same. Qed.

Lemma appends_call (ev : event) (oracle : list event -> result A) :
  P ev = true -> appends P (call ev oracle).
Proof. intros Hev w. exists [ev]. cbn. by rewrite Hev. Qed.

Lemma appends_if (b : bool) (m1 m2 : M A) :
  (b = true -> appends P m1) -> (b = false -> appends P m2) ->
  appends P (if b then m1 else m2).
Proof. destruct b; auto. Qed.

End Appends.

Lemma appends_bind {A B : Type} (P : event -> bool) (m : M A) (k : A -> M B) :
  appends P m ->
  (forall a w w', m w = (Ok a, w') -> appends P (k a)) ->
  appends P (m ≫= k).
Proof.
  intros Hm Hk w. rewrite bind_run. destruct (Hm w) as (new1 & Hev1 & HP1).
  destruct (m w) as [[a|e] w1] eqn:Hmw; cbn [snd] in Hev1.
  - destruct (Hk a w w1 Hmw w1) as (new2 & Hev2 & HP2).
    exists (new1 ++ new2)%list. rewrite Hev2, Hev1, app_assoc. split; [reflexivity|].
    rewrite forallb_app, HP1, HP2. reflexivity.
  - exists new1. auto.
Qed.

Lemma appends_logger_info (P : event -> bool) (template : string) (args : list pyval) :
  P (EvLog template args) = true -> appends P (logger_info template args).
Proof. intros Hev w. exists [EvLog template args]. cbn. by rewrite Hev. Qed.

Lemma appends_set_task_doc (P : event -> bool) (d : pyval) : appends P (set_task_doc d).
Proof. by apply appends_same. Qed.

Lemma appends_get_task_doc (P : event -> bool) : appends P get_task_doc.
Proof. by apply appends_same. Qed.

Lemma appends_update_task_doc (P : event -> bool) (f : pyval -> result pyval) :
  appends P (update_task_doc f).
Proof.
  apply appends_same. intros w. unfold update_task_doc. by destruct (f (task_doc w)).
Qed.

Ltac appends_step :=
  first
    [ apply appends_bind; [|intros ? ? ? ?]
    | apply appends_lift
    | apply appends_ret
    | apply appends_set_task_doc
    | apply appends_get_task_doc
    | apply appends_update_task_doc
    | apply appends_logger_info; solve [reflexivity | auto]
    | apply appends_call; solve [reflexivity | auto] ].

Section AppendsBlocks.

Variable E : Env.
Variable P : event -> bool.

Lemma appends_report : appends P report.
Proof. unfold report. repeat appends_step. Qed.

Lemma appends_write_task_json :
  (forall fname mode, P (EvOpen fname mode) = true) ->
  (forall fname data, P (EvWrite fname data) = true) ->
  appends P (write_task_json E).
Proof. intros Hopen Hwrite. unfold write_task_json. repeat appends_step. Qed.

Lemma appends_connect (db_file : pyval) :
  (forall f, P (EvGetSettings f) = true) ->
  (forall h p d u pw c, P (EvMMDb h p d u pw c) = true) ->
  appends P (connect E db_file).
Proof. intros Hget Hdb. unfold connect. repeat appends_step. Qed.

Lemma appends_insert_task_doc :
  (forall d, P (EvInsert d) = true) ->
  (forall template args, P (EvLog template args) = true) ->
  appends P (insert_task_doc E).
Proof.
  intros Hins Hlog. unfold insert_task_doc. apply appends_bind.
  - intros w. destruct (db_insert E (task_doc w) (events w)) as [d r].
    exists [EvInsert (task_doc w)]. cbn. by rewrite Hins.
  - intros ? ? ? ?. by apply appends_logger_info.
Qed.

Lemma appends_gridfs_move (field ns : string) :
  (forall payload n, P (EvInsertGridfs payload n) = true) ->
  appends P (gridfs_move E field ns).
Proof.
  intros Hgfs. unfold gridfs_move. do 3 (apply appends_bind; [appends_step|intros ? ? ? ?]).
  apply appends_bind; [appends_step|intros [gfs_id ct] ? ? ?].
  repeat appends_step.
Qed.

(** [offload] appends nothing but GridFS calls, and none at all when its
    flag is false. *)
Lemma appends_offload (enabled : pyval) (field ns : string) :
  truthy enabled = false \/ (forall payload n, P (EvInsertGridfs payload n) = true) ->
  appends P (offload E enabled field ns).
Proof.
  intros [Hoff|Hgfs].
  - apply appends_same. intros w. by rewrite (offload_skips E _ _ _ w (or_introl Hoff)).
  - unfold offload. do 2 (apply appends_bind; [appends_step|intros ? ? ? ?]).
    apply appends_if; intros _; [|appends_step].
    apply appends_bind; [appends_step|intros ? ? ? ?].
    apply appends_if; intros _; [|appends_step].
    by apply appends_gridfs_move.
Qed.

End AppendsBlocks.

Section AppendsRun.

Variable E : Env.
Variable P : event -> bool.
Variables (cls : firetask) (self : gmap string pyval) (fw_spec : FwSpec).

(** A run appends its log line, the construction of the drone, the
    assimilation, and what [persist] appends for the [db_file] resolved. *)
Lemma appends_run_task :
  (forall template args, P (EvLog template args) = true) ->
  (forall c kwargs, P (EvNew c kwargs) = true) ->
  (forall drone calc_dir, P (EvAssimilate drone calc_dir) = true) ->
  (forall db_file,
     env_chk E (self_get self "db_file") fw_spec = Ok db_file ->
     appends P (persist E cls self db_file)) ->
  appends P (run_task E cls self fw_spec).
Proof.
  intros Hlog Hnew Hassim Hpersist.
  destruct cls; cbn [run_task]; unfold VaspToDbTask_run_task, ToDbTask_run_task.
  - apply appends_bind; [appends_step|intros calc_dir ? ? _].
    apply appends_bind; [appends_step|intros ? ? ? _].
    apply appends_bind; [appends_step|intros db_file ? ? Henv].
    apply lift_Ok in Henv as [Henv _].
    apply appends_bind; [appends_step|intros ? ? ? _]. cbv zeta.
    apply appends_bind; [appends_step|intros drone ? ? _].
    apply appends_bind; [appends_step|intros d ? ? _].
    apply appends_bind; [appends_step|intros ? ? ? _].
    apply appends_bind; [exact (Hpersist db_file Henv)|intros ? ? ? _].
    apply appends_report.
  - apply appends_bind; [appends_step|intros calc_dir ? ? _].
    apply appends_bind; [appends_step|intros passed ? ? _].
    apply appends_bind; [appends_step|intros ? ? ? _].
    apply appends_bind; [appends_step|intros db_file ? ? Henv].
    apply lift_Ok in Henv as [Henv _].
    apply appends_bind; [appends_step|intros ? ? ? _].
    apply appends_bind; [appends_step|intros passed' ? ? _].
    apply appends_bind; [appends_step|intros drone ? ? _].
    apply appends_bind; [appends_step|intros d ? ? _].
    apply appends_bind; [appends_step|intros ? ? ? _].
    apply appends_bind; [exact (Hpersist db_file Henv)|intros ? ? ? _].
    apply appends_report.
Qed.

(** What the database branch appends: settings, connection, the build
    of the indices when both of its flags are true, a GridFS call for each
    enabled field, the insertion and its log line. *)
Lemma appends_db_insertion (db_file : pyval) :
  (forall f, P (EvGetSettings f) = true) ->
  (forall h p d u pw c, P (EvMMDb h p d u pw c) = true) ->
  (forall d, P (EvInsert d) = true) ->
  (forall template args, P (EvLog template args) = true) ->
  match cls with
  | ToDbTask => True
  | VaspToDbTask =>
      (truthy (self_get_default self "build_db" (PBool false)) = false \/
       truthy (self_get self "db_indices") = false \/
       forall indices, P (EvBuild indices) = true) /\
      ((truthy (self_get_default self "parse_dos" (PBool false)) = false /\
        truthy (self_get_default self "bandstructure_mode" (PBool false)) = false) \/
       forall payload n, P (EvInsertGridfs payload n) = true)
  end ->
  appends P (db_insertion E cls self db_file).
Proof.
  intros Hget Hdb Hins Hlog Hcls. unfold db_insertion. destruct cls.
  - destruct Hcls as [Hbuild Hgfs].
    apply appends_bind; [by apply appends_connect|intros ? ? ? _].
    apply appends_bind; [|intros ? ? ? _].
    { apply appends_if; intros Hb; [|appends_step].
      apply appends_if; intros Hi; [|appends_step].
      destruct Hbuild as [Hb'|[Hi'|HP]]; [congruence|congruence|by apply appends_call]. }
    apply appends_bind; [|intros ? ? ? _].
    { apply appends_offload. destruct Hgfs as [[Hd _]|HP]; auto. }
    apply appends_bind; [|intros ? ? ? _].
    { apply appends_offload. destruct Hgfs as [[_ Hb]|HP]; auto. }
    by apply appends_insert_task_doc.
  - apply appends_bind; [by apply appends_connect|intros ? ? ? _].
    by apply appends_insert_task_doc.
Qed.

End AppendsRun.

(** X10: with a [db_file], no run of either task opens or writes a local
    file, whatever its outcome: [task.json] belongs to the other branch. *)
Theorem X10_db_file_means_no_local_file (E : Env) (cls : firetask)
    (self : gmap string pyval) (fw_spec : FwSpec) (db_file : pyval) (w : World) :
  env_chk E (self_get self "db_file") fw_spec = Ok db_file ->
  truthy db_file = true ->
  exists new : list event,
    events (run_task E cls self fw_spec w).2 = (events w ++ new)%list /\
    forallb (fun ev => negb (is_file_call ev)) new = true.
Proof.
  intros Henv Htrue. revert w. apply appends_run_task; try reflexivity.
  intros db_file' Henv'. rewrite Henv in Henv'. injection Henv' as <-.
  unfold persist. rewrite Htrue. cbn [negb].
  apply appends_db_insertion; try reflexivity. destruct cls; auto.
Qed.

Lemma X10_db_file_means_no_local_file_witness :
  exists new : list event,
    events (run_task (demo_env (PDict doc_with_dos)) VaspToDbTask
              (<["db_file" := PStr "db.json"]> {["parse_dos" := PBool true]})
              no_calc_locs (start PNone)).2 = new /\
    forallb (fun ev => negb (is_file_call ev)) new = true.
Proof.
  assert (Henv : env_chk (demo_env (PDict doc_with_dos))
                   (self_get (<["db_file" := PStr "db.json"]> {["parse_dos" := PBool true]})
                      "db_file") no_calc_locs = Ok (PStr "db.json")) by reflexivity.
  exact (X10_db_file_means_no_local_file (demo_env (PDict doc_with_dos)) VaspToDbTask
           (<["db_file" := PStr "db.json"]> {["parse_dos" := PBool true]})
           no_calc_locs (PStr "db.json") (start PNone) Henv eq_refl).
Defined.

(** X11: [ToDbTask] never calls GridFS and never builds indices, in any
    run, with or without a [db_file]: its database branch is the
    connection and the insertion only. *)
Theorem X11_ToDbTask_no_gridfs_no_build (E : Env) (self : gmap string pyval)
    (fw_spec : FwSpec) (w : World) :
  exists new : list event,
    events (ToDbTask_run_task E self fw_spec w).2 = (events w ++ new)%list /\
    forallb (fun ev => negb (is_gridfs_call ev || is_build_call ev)) new = true.
Proof.
  revert w. apply (appends_run_task E _ ToDbTask); try reflexivity.
  intros db_file _. unfold persist. apply appends_if; intros _.
  - apply appends_write_task_json; reflexivity.
  - apply appends_db_insertion; try reflexivity.
Qed.

(** X12: when neither [parse_dos] nor [bandstructure_mode] is true,
    [VaspToDbTask] makes no GridFS call, whatever the drone's document
    holds and whatever the outcome of the run. *)
Theorem X12_no_flag_no_gridfs (E : Env) (self : gmap string pyval) (fw_spec : FwSpec)
    (w : World) :
  truthy (self_get_default self "parse_dos" (PBool false)) = false ->
  truthy (self_get_default self "bandstructure_mode" (PBool false)) = false ->
  exists new : list event,
    events (VaspToDbTask_run_task E self fw_spec w).2 = (events w ++ new)%list /\
    forallb (fun ev => negb (is_gridfs_call ev)) new = true.
Proof.
  intros Hdos Hbs. revert w. apply (appends_run_task E _ VaspToDbTask); try reflexivity.
  intros db_file _. unfold persist. apply appends_if; intros _.
  - apply appends_write_task_json; reflexivity.
  - apply appends_db_insertion; try reflexivity. split; [right; right|left]; auto.
Qed.

Lemma X12_no_flag_no_gridfs_witness :
  exists new : list event,
    events (VaspToDbTask_run_task (demo_env (PDict doc_with_both))
              {["db_file" := PStr "db.json"]} no_calc_locs (start PNone)).2 = new /\
    forallb (fun ev => negb (is_gridfs_call ev)) new = true.
Proof.
  exact (X12_no_flag_no_gridfs (demo_env (PDict doc_with_both))
           {["db_file" := PStr "db.json"]} no_calc_locs (start PNone) eq_refl eq_refl).
Defined.

(** X13: [db.build] is called only when [build_db] and [db_indices] are
    both true: with either of them absent or false, no run builds
    indices. *)
Theorem X13_build_needs_both_flags (E : Env) (self : gmap string pyval) (fw_spec : FwSpec)
    (w : World) :
  truthy (self_get_default self "build_db" (PBool false)) = false \/
  truthy (self_get self "db_indices") = false ->
  exists new : list event,
    events (VaspToDbTask_run_task E self fw_spec w).2 = (events w ++ new)%list /\
    forallb (fun ev => negb (is_build_call ev)) new = true.
Proof.
  intros Hflags. revert w. apply (appends_run_task E _ VaspToDbTask); try reflexivity.
  intros db_file _. unfold persist. apply appends_if; intros _.
  - apply appends_write_task_json; reflexivity.
  - apply appends_db_insertion; try reflexivity.
    split; [destruct Hflags; auto|right; reflexivity].
Qed.

Lemma X13_build_needs_both_flags_witness :
  exists new : list event,
    events (VaspToDbTask_run_task (demo_env (PDict doc_with_dos))
              (<["db_file" := PStr "db.json"]> {["build_db" := PBool true]})
              no_calc_locs (start PNone)).2 = new /\
    forallb (fun ev => negb (is_build_call ev)) new = true.
Proof.
  exact (X13_build_needs_both_flags (demo_env (PDict doc_with_dos))
           (<["db_file" := PStr "db.json"]> {["build_db" := PBool true]})
           no_calc_locs (start PNone) (or_intror eq_refl)).
Defined.

(** ** The drone fails; the database branch returns *)

(** Two splittings of one list at the first element accepted by [p]
    are the same splitting. *)
Lemma first_occurrence {A : Type} (p : A -> bool) (l1 l2 r1 r2 : list A) (x y : A) :
  (l1 ++ x :: r1 = l2 ++ y :: r2)%list ->
  p x = true -> p y = true ->
  existsb p l1 = false -> existsb p l2 = false ->
  l1 = l2 /\ x = y /\ r1 = r2.
Proof.
  revert l2. induction l1 as [|a l1 IH]; intros [|b l2] Heq Hx Hy H1 H2; cbn in *.
  - injection Heq as -> ->. auto.
  - injection Heq as -> _. rewrite Hx in H2. discriminate.
  - injection Heq as -> _. rewrite Hy in H1. discriminate.
  - injection Heq as -> Heq.
    apply orb_false_iff in H1 as [_ H1]. apply orb_false_iff in H2 as [_ H2].
    destruct (IH l2 Heq Hx Hy H1 H2) as (-> & -> & ->). auto.
Qed.

(** After the assimilation a run only appends to the trace. *)
Lemma persist_report_appends (E : Env) (cls : firetask) (self : gmap string pyval)
    (db_file : pyval) (w : World) :
  exists more : list event,
    events ((persist E cls self db_file ≫= fun _ => report) w).2 = (events w ++ more)%list.
Proof.
  assert (Happ : appends (fun _ => true) (persist E cls self db_file ≫= fun _ => report)).
  { apply appends_bind; [|intros ? ? ? _; apply appends_report].
    unfold persist. apply appends_if; intros _.
    - apply appends_write_task_json; reflexivity.
    - apply appends_db_insertion; try reflexivity. destruct cls; auto. }
  destruct (Happ w) as (more & Hmore & _). eauto.
Qed.

Lemma run_task_drone_fails (E : Env) (cls : firetask) (self : gmap string pyval)
    (fw_spec : FwSpec) (w w' : World) (r : result FWAction)
    (pre post : list event) (drone calc_dir : pyval) (e : exn) :
  run_task E cls self fw_spec w = (r, w') ->
  events w' = (events w ++ pre ++ EvAssimilate drone calc_dir :: post)%list ->
  existsb is_assimilate_call pre = false ->
  assimilate E drone calc_dir (events w ++ pre) = Raise e ->
  r = Raise e /\ post = [] /\
  forallb (fun ev => negb (is_file_call ev || is_store_call ev)) pre = true.
Proof.
  intros H Hsplit Hpre Hraise.
  destruct cls; cbn [run_task] in H; unfold VaspToDbTask_run_task, ToDbTask_run_task in H;
    unfold mbind, M_bind, lift, call, logger_info, set_task_doc in H;
    cbn [task_doc events] in H.
  all: repeat match type of H with
       | context [match ?x with Ok _ => _ | Raise _ => _ end] => destruct x eqn:?
       end.
  all: first
    [ (* the run stopped before any call *)
      solve [ injection H as <- <-;
              apply (f_equal (@length event)) in Hsplit;
              rewrite !length_app in Hsplit; cbn [length] in Hsplit; lia ]
    | (* the run stopped before the drone was called *)
      solve [ injection H as <- <-; cbn [events] in Hsplit;
              rewrite <- ?app_assoc in Hsplit; apply app_inv_head in Hsplit;
              apply (f_equal (existsb is_assimilate_call)) in Hsplit;
              rewrite !existsb_app in Hsplit; cbn in Hsplit;
              rewrite ?Hpre, ?orb_true_r in Hsplit; discriminate Hsplit ]
    | (* the drone raised *)
      solve [ injection H as <- <-; cbn [events] in Hsplit;
              rewrite <- ?app_assoc in Hsplit; apply app_inv_head in Hsplit;
              symmetry in Hsplit;
              match type of Hsplit with
              | _ = ([?x] ++ [?y] ++ [?z])%list =>
                  apply (first_occurrence is_assimilate_call pre [x; y] post [] _ z)
                    in Hsplit as (-> & Hz & ->); [|reflexivity ..|exact Hpre|reflexivity]
              end;
              injection Hz as -> ->;
              match goal with
              | Hcall : assimilate _ _ _ _ = Raise _ |- _ =>
                  rewrite <- ?app_assoc in Hcall; cbn [app] in Hcall, Hraise;
                  rewrite Hraise in Hcall; injection Hcall as <-
              end;
              repeat split ]
    | (* the drone returned: the call that raises is not this run's *)
      exfalso;
      match type of H with
      | (let (_, _) := _ ?W in _) = _ =>
          match goal with
          | Henv : env_chk _ _ _ = Ok ?db |- _ =>
              first
                [ destruct (persist_report_appends E VaspToDbTask self db W) as [more Hmore];
                  assert (H' : (persist E VaspToDbTask self db ≫= fun _ => report) W = (r, w'))
                    by exact H
                | destruct (persist_report_appends E ToDbTask self db W) as [more Hmore];
                  assert (H' : (persist E ToDbTask self db ≫= fun _ => report) W = (r, w'))
                    by exact H ]
          end
      end;
      rewrite H' in Hmore; cbn [snd events] in Hmore; rewrite Hmore in Hsplit;
      rewrite <- ?app_assoc in Hsplit; apply app_inv_head in Hsplit;
      symmetry in Hsplit;
      match type of Hsplit with
      | _ = ([?x] ++ [?y] ++ [?z] ++ ?m)%list =>
          apply (first_occurrence is_assimilate_call pre [x; y] post m _ z)
            in Hsplit as (-> & Hz & _); [|reflexivity ..|exact Hpre|reflexivity]
      end;
      injection Hz as -> ->;
      match goal with
      | Hcall : assimilate _ _ _ _ = Ok _ |- _ =>
          rewrite <- ?app_assoc in Hcall; cbn [app] in Hcall, Hraise;
          rewrite Hraise in Hcall; discriminate Hcall
      end ].
Qed.

(** X14: when the call a run makes to the drone's [assimilate] raises,
    the run raises that exception, makes no further call, and has made
    none to a file or to the database before: nothing is persisted.  The
    call is named by its place in the trace: the first assimilation after
    the calls [pre] of this run. *)
Theorem X14_drone_failure_aborts (E : Env) (cls : firetask) (self : gmap string pyval)
    (fw_spec : FwSpec) (w : World) (pre post : list event) (drone calc_dir : pyval)
    (e : exn) :
  events (run_task E cls self fw_spec w).2
    = (events w ++ pre ++ EvAssimilate drone calc_dir :: post)%list ->
  existsb is_assimilate_call pre = false ->
  assimilate E drone calc_dir (events w ++ pre) = Raise e ->
  (run_task E cls self fw_spec w).1 = Raise e /\
  post = [] /\
  forallb (fun ev => negb (is_file_call ev || is_store_call ev)) pre = true.
Proof.
  intros Hsplit Hpre Hraise.
  destruct (run_task E cls self fw_spec w) as [r w'] eqn:Hrun.
  exact (run_task_drone_fails E cls self fw_spec w w' r pre post drone calc_dir e
           Hrun Hsplit Hpre Hraise).
Qed.

Lemma X14_drone_failure_aborts_witness :
  (run_task (picky_drone_env (PDict doc_with_dos)) VaspToDbTask
     (<["calc_dir" := PStr "/bad"]> {["db_file" := PStr "db.json"]}) no_calc_locs
     (start PNone)).1 = Raise (External "drone" "no vasprun.xml") /\
  ([] : list event) = [] /\
  forallb (fun ev => negb (is_file_call ev || is_store_call ev))
    [EvLog "PARSING DIRECTORY: {}" [PStr "/bad"];
     EvNew "VaspDrone"
       [("additional_fields", PNone); ("parse_dos", PBool false); ("compress_dos", PInt 1);
        ("bandstructure_mode", PBool false); ("compress_bs", PInt 1)]] = true.
Proof.
  exact (X14_drone_failure_aborts (picky_drone_env (PDict doc_with_dos)) VaspToDbTask
           (<["calc_dir" := PStr "/bad"]> {["db_file" := PStr "db.json"]}) no_calc_locs
           (start PNone)
           [EvLog "PARSING DIRECTORY: {}" [PStr "/bad"];
            EvNew "VaspDrone"
              [("additional_fields", PNone); ("parse_dos", PBool false);
               ("compress_dos", PInt 1); ("bandstructure_mode", PBool false);
               ("compress_bs", PInt 1)]]
           [] (PObj "VaspDrone" ∅) (PStr "/bad") (External "drone" "no vasprun.xml")
           eq_refl eq_refl eq_refl).
Defined.

(** The same drone on another directory: the run returns. *)
Example picky_drone_other_directory :
  (run_task (picky_drone_env (PDict doc_with_dos)) VaspToDbTask
     (<["calc_dir" := PStr "/good"]> {["db_file" := PStr "db.json"]}) no_calc_locs
     (start PNone)).1
  = Ok {| stored_data := {["task_id" := PInt 1]}; defuse_children := false |}.
Proof. reflexivity. Qed.

Lemma insert_task_doc_trace (E : Env) (w w' : World) :
  insert_task_doc E w = (Ok tt, w') ->
  exists t_id,
    db_insert E (task_doc w) (events w) = (task_doc w', Ok t_id) /\
    events w' = (events w ++ [EvInsert (task_doc w);
                              EvLog "Finished parsing with task_id: {}" [t_id]])%list.
Proof.
  unfold insert_task_doc. intros H.
  apply bind_Ok in H as (t_id & w1 & Hins & H).
  destruct (db_insert E (task_doc w) (events w)) as [d r] eqn:Hdb.
  injection Hins as -> <-. unfold logger_info in H. injection H as <-.
  exists t_id. cbn [task_doc events]. by rewrite <- app_assoc.
Qed.

(** X15: a run with a [db_file] that returns has ended its calls with
    the insertion of the task document, followed by the log line that
    carries the identifier [db.insert] returned; the document the run ends
    with is the one [db.insert] left. *)
Theorem X15_insert_is_last_call (E : Env) (cls : firetask) (self : gmap string pyval)
    (fw_spec : FwSpec) (w w' : World) (a : FWAction) (db_file : pyval) :
  run_task E cls self fw_spec w = (Ok a, w') ->
  env_chk E (self_get self "db_file") fw_spec = Ok db_file ->
  truthy db_file = true ->
  exists tr doc t_id,
    events w' = (tr ++ [EvInsert doc; EvLog "Finished parsing with task_id: {}" [t_id]])%list /\
    db_insert E doc tr = (task_doc w', Ok t_id).
Proof.
  intros Hrun Henv Htrue.
  apply run_task_Ok in Hrun as (db_file' & w0 & w1 & Henv' & Hreport & Hpersist).
  rewrite Henv in Henv'. injection Henv' as <-. rewrite Htrue in Hpersist.
  apply report_Ok in Hreport as (-> & _).
  apply insert_task_doc_trace in Hpersist as (t_id & Hdb & Hev).
  exists (events w0), (task_doc w0), t_id. auto.
Qed.

Lemma X15_insert_is_last_call_witness :
  exists tr doc t_id,
    events (run_task (demo_env (PDict doc_no_calcs)) ToDbTask
              (<["db_file" := PStr "db.json"]> {["drone" := PObj "VaspDrone" ∅]})
              no_calc_locs (start PNone)).2
      = (tr ++ [EvInsert doc; EvLog "Finished parsing with task_id: {}" [t_id]])%list /\
    db_insert (demo_env (PDict doc_no_calcs)) doc tr
      = (PDict (<["task_id" := PInt 1]> doc_no_calcs), Ok t_id).
Proof.
  assert (Henv : env_chk (demo_env (PDict doc_no_calcs))
                   (self_get (<["db_file" := PStr "db.json"]>
                                {["drone" := PObj "VaspDrone" ∅]}) "db_file") no_calc_locs
                 = Ok (PStr "db.json")) by reflexivity.
  exact (X15_insert_is_last_call (demo_env (PDict doc_no_calcs)) ToDbTask
           (<["db_file" := PStr "db.json"]> {["drone" := PObj "VaspDrone" ∅]})
           no_calc_locs (start PNone)
           (run_task (demo_env (PDict doc_no_calcs)) ToDbTask
              (<["db_file" := PStr "db.json"]> {["drone" := PObj "VaspDrone" ∅]})
              no_calc_locs (start PNone)).2
           {| stored_data := {["task_id" := PInt 1]}; defuse_children := true |}
           (PStr "db.json") eq_refl Henv eq_refl).
Defined.

(** A run that returns, cut at [persist]: [w0] is the world just after
    the assimilation. *)
Lemma run_task_Ok_persist (E : Env) (cls : firetask) (self : gmap string pyval)
    (fw_spec : FwSpec) (w w' : World) (a : FWAction) :
  run_task E cls self fw_spec w = (Ok a, w') ->
  exists db_file drone calc_dir w0 w1,
    env_chk E (self_get self "db_file") fw_spec = Ok db_file /\
    (exists tr, assimilate E drone calc_dir tr = Ok (task_doc w0)) /\
    persist E cls self db_file w0 = (Ok tt, w1) /\
    report w1 = (Ok a, w').
Proof.
  intros H. destruct cls; cbn [run_task] in H.
  - unfold VaspToDbTask_run_task in H.
    apply bind_Ok in H as (calc_dir & w1 & _ & H).
    apply bind_Ok in H as ([] & w2 & _ & H).
    apply bind_Ok in H as (db_file & w3 & Henv & H). apply lift_Ok in Henv as [Henv _].
    apply bind_Ok in H as ([] & w4 & _ & H). cbv zeta in H.
    apply bind_Ok in H as (drone & w5 & _ & H).
    apply bind_Ok in H as (d & w6 & Hd & H). apply call_Ok in Hd as (Hd & _ & _).
    apply bind_Ok in H as ([] & w7 & Hset & H). apply set_task_doc_Ok in Hset as [Hset _].
    apply bind_Ok in H as ([] & w8 & Hpersist & H).
    exists db_file, drone, calc_dir, w7, w8. rewrite Hset. eauto 10.
  - unfold ToDbTask_run_task in H.
    apply bind_Ok in H as (calc_dir & w1 & _ & H).
    apply bind_Ok in H as (passed & w2 & _ & H).
    apply bind_Ok in H as ([] & w3 & _ & H).
    apply bind_Ok in H as (db_file & w4 & Henv & H). apply lift_Ok in Henv as [Henv _].
    apply bind_Ok in H as ([] & w5 & _ & H).
    apply bind_Ok in H as (passed' & w6 & _ & H).
    apply bind_Ok in H as (drone & w7 & _ & H).
    apply bind_Ok in H as (d & w8 & Hd & H). apply call_Ok in Hd as (Hd & _ & _).
    apply bind_Ok in H as ([] & w9 & Hset & H). apply set_task_doc_Ok in Hset as [Hset _].
    apply bind_Ok in H as ([] & w10 & Hpersist & H).
    exists db_file, drone, calc_dir, w9, w10. rewrite Hset. eauto 10.
Qed.

(** Settings and connection leave the task document alone. *)
Lemma connect_Ok_doc (E : Env) (db_file : pyval) (w w' : World) :
  connect E db_file w = (Ok tt, w') -> task_doc w' = task_doc w.
Proof.
  unfold connect. intros H.
  apply bind_Ok in H as (db_config & w1 & Hcfg & H). apply call_Ok in Hcfg as (_ & Hdoc1 & _).
  do 6 (apply bind_Ok in H as (? & ? & Hlift & H); apply lift_Ok in Hlift as [_ ->]).
  apply call_Ok in H as (_ & Hdoc2 & _). congruence.
Qed.

(** With no GridFS block enabled, the database branch hands [db.insert]
    the document it started from. *)
Lemma db_insertion_Ok_doc (E : Env) (cls : firetask) (self : gmap string pyval)
    (db_file : pyval) (w w' : World) :
  match cls with
  | ToDbTask => True
  | VaspToDbTask =>
      truthy (self_get_default self "parse_dos" (PBool false)) = false /\
      truthy (self_get_default self "bandstructure_mode" (PBool false)) = false
  end ->
  db_insertion E cls self db_file w = (Ok tt, w') ->
  exists w0, task_doc w0 = task_doc w /\ insert_task_doc E w0 = (Ok tt, w').
Proof.
  intros Hcls H. unfold db_insertion in H. destruct cls.
  - destruct Hcls as [Hdos Hbs].
    apply bind_Ok in H as ([] & w1 & Hconn & H). apply connect_Ok_doc in Hconn.
    apply bind_Ok in H as ([] & w2 & Hbuild & H).
    assert (Hdoc2 : task_doc w2 = task_doc w1).
    { destruct (truthy (self_get_default self "build_db" (PBool false)));
        [destruct (truthy (self_get self "db_indices"))|].
      - by apply call_Ok in Hbuild as (_ & ? & _).
      - by injection Hbuild as <-.
      - by injection Hbuild as <-. }
    apply bind_Ok in H as ([] & w3 & Hoff1 & H).
    rewrite (offload_skips E _ _ _ w2 (or_introl Hdos)) in Hoff1. injection Hoff1 as <-.
    apply bind_Ok in H as ([] & w4 & Hoff2 & H).
    rewrite (offload_skips E _ _ _ w2 (or_introl Hbs)) in Hoff2. injection Hoff2 as <-.
    exists w2. split; [congruence|exact H].
  - apply bind_Ok in H as ([] & w1 & Hconn & H). apply connect_Ok_doc in Hconn.
    exists w1. auto.
Qed.

(** X16: when no GridFS block is enabled ([ToDbTask] always;
    [VaspToDbTask] with [parse_dos] and [bandstructure_mode] both false), a
    run with a [db_file] that returns has handed [db.insert] the document
    exactly as the drone returned it. *)
Theorem X16_inserted_as_assimilated (E : Env) (cls : firetask) (self : gmap string pyval)
    (fw_spec : FwSpec) (w w' : World) (a : FWAction) (db_file : pyval) :
  run_task E cls self fw_spec w = (Ok a, w') ->
  env_chk E (self_get self "db_file") fw_spec = Ok db_file ->
  truthy db_file = true ->
  match cls with
  | ToDbTask => True
  | VaspToDbTask =>
      truthy (self_get_default self "parse_dos" (PBool false)) = false /\
      truthy (self_get_default self "bandstructure_mode" (PBool false)) = false
  end ->
  exists drone calc_dir tr d tr' t_id,
    assimilate E drone calc_dir tr = Ok d /\
    db_insert E d tr' = (task_doc w', Ok t_id) /\
    EvInsert d ∈ events w'.
Proof.
  intros Hrun Henv Htrue Hcls.
  apply run_task_Ok_persist in Hrun
    as (db_file' & drone & calc_dir & w0 & w1 & Henv' & [tr Hd] & Hpersist & Hreport).
  rewrite Henv in Henv'. injection Henv' as <-.
  unfold persist in Hpersist. rewrite Htrue in Hpersist. cbn [negb] in Hpersist.
  apply (db_insertion_Ok_doc E cls self db_file w0 w1 Hcls) in Hpersist
    as (w2 & Hdoc & Hins).
  apply report_Ok in Hreport as (-> & _).
  apply insert_task_doc_trace in Hins as (t_id & Hdb & Hev).
  rewrite Hdoc in Hdb, Hev.
  exists drone, calc_dir, tr, (task_doc w0), (events w2), t_id.
  split; [exact Hd|]. split; [exact Hdb|].
  rewrite Hev. apply elem_of_app. right. apply list_elem_of_here.
Qed.

Lemma X16_inserted_as_assimilated_witness :
  exists drone calc_dir tr d tr' t_id,
    assimilate (demo_env (PDict doc_with_both)) drone calc_dir tr = Ok d /\
    db_insert (demo_env (PDict doc_with_both)) d tr'
      = (PDict (<["task_id" := PInt 1]> doc_with_both), Ok t_id) /\
    EvInsert d ∈
      events (run_task (demo_env (PDict doc_with_both)) VaspToDbTask
                {["db_file" := PStr "db.json"]} no_calc_locs (start PNone)).2.
Proof.
  assert (Henv : env_chk (demo_env (PDict doc_with_both))
                   (self_get {["db_file" := PStr "db.json"]} "db_file") no_calc_locs
                 = Ok (PStr "db.json")) by reflexivity.
  exact (X16_inserted_as_assimilated (demo_env (PDict doc_with_both)) VaspToDbTask
           {["db_file" := PStr "db.json"]} no_calc_locs (start PNone)
           (run_task (demo_env (PDict doc_with_both)) VaspToDbTask
              {["db_file" := PStr "db.json"]} no_calc_locs (start PNone)).2
           {| stored_data := {["task_id" := PInt 1]}; defuse_children := false |}
           (PStr "db.json") eq_refl Henv eq_refl (conj eq_refl eq_refl)).
Defined.

(** ** The parameters [VaspToDbTask] reads *)

Lemma get_calc_dir_ext (cwd : string) (self1 self2 : gmap string pyval) (fw_spec : FwSpec) :
  self1 !! "calc_dir" = self2 !! "calc_dir" ->
  self1 !! "calc_loc" = self2 !! "calc_loc" ->
  self1 !! "calc_loc_name" = self2 !! "calc_loc_name" ->
  get_calc_dir cwd self1 fw_spec = get_calc_dir cwd self2 fw_spec.
Proof.
  intros Hdir Hloc Hname. unfold get_calc_dir, self_get, self_getitem.
  rewrite Hdir, Hloc.
  destruct (self2 !! "calc_dir"); [reflexivity|].
  destruct (truthy _); [|reflexivity].
  destruct (self2 !! "calc_loc") as [calc_loc|]; [|reflexivity].
  cbn [mbind result_bind]. destruct (is_string calc_loc); [|reflexivity].
  destruct (fw_calc_locs fw_spec) as [locs|e]; [|reflexivity].
  cbn [mbind result_bind]. by apply scan_calc_locs_ext.
Qed.

(** X17: a run of [VaspToDbTask] depends on the task through nine keys
    only: the eight declared optional parameters and [calc_loc_name].
    Two tasks that agree on these run alike, in every world and with every
    collaborator; any other key is ignored. *)
Theorem X17_VaspToDbTask_reads_nine_keys (E : Env) (self1 self2 : gmap string pyval)
    (fw_spec : FwSpec) (w : World) :
  (forall k : string,
     k ∈ ["calc_dir"; "calc_loc"; "calc_loc_name"; "parse_dos"; "bandstructure_mode";
          "additional_fields"; "db_file"; "build_db"; "db_indices"] ->
     self1 !! k = self2 !! k) ->
  VaspToDbTask_run_task E self1 fw_spec w = VaspToDbTask_run_task E self2 fw_spec w.
Proof.
  intros Hagree.
  assert (Hk : forall k,
            In k ["calc_dir"; "calc_loc"; "calc_loc_name"; "parse_dos"; "bandstructure_mode";
                  "additional_fields"; "db_file"; "build_db"; "db_indices"] ->
            self1 !! k = self2 !! k).
  { intros k Hin. apply Hagree, list_elem_of_In, Hin. }
  unfold VaspToDbTask_run_task, self_get, self_get_default.
  rewrite (get_calc_dir_ext _ self1 self2) by (apply Hk; simpl; tauto).
  rewrite (Hk "db_file"), (Hk "additional_fields"), (Hk "parse_dos"),
    (Hk "bandstructure_mode"), (Hk "build_db"), (Hk "db_indices") by (simpl; tauto).
  reflexivity.
Qed.

Lemma X17_VaspToDbTask_reads_nine_keys_witness :
  VaspToDbTask_run_task (demo_env (PDict doc_with_dos))
    (<["options" := PBool true]> {["parse_dos" := PBool true]}) no_calc_locs (start PNone)
  = VaspToDbTask_run_task (demo_env (PDict doc_with_dos))
      (<["drone" := PNone]> {["parse_dos" := PBool true]}) no_calc_locs (start PNone).
Proof.
  apply X17_VaspToDbTask_reads_nine_keys. intros k Hk.
  apply list_elem_of_In in Hk. simpl in Hk.
  destruct Hk as [<-|[<-|[<-|[<-|[<-|[<-|[<-|[<-|[<-|[]]]]]]]]]]; reflexivity.
Defined.

(** * The GridFS blocks on objects *)

Lemma h_bind_run {A B : Type} (m : HM A) (k : A -> HM B) (w : HWorld) :
  (m ≫= k) w =
  match m w with
  | (Ok a, w') => k a w'
  | (Raise e, w') => (Raise e, w')
  end.
Proof. reflexivity. Qed.

(** No reference key is the key of the list of calculations. *)
Lemma suffix_compression_ne (field : string) : field +:+ "_compression" <> "calcs_reversed".
Proof.
  intros H.
  do 15 (destruct field as [|? field]; cbn [String.append] in H;
         [discriminate H|first [discriminate H|injection H as _ H]]).
Qed.

Lemma suffix_fs_id_ne (field : string) : field +:+ "_fs_id" <> "calcs_reversed".
Proof.
  intros H.
  do 15 (destruct field as [|? field]; cbn [String.append] in H;
         [discriminate H|first [discriminate H|injection H as _ H]]).
Qed.

Section Objects.

Variables (a_doc a_calcs a0 : nat) (rest : list hval).

Lemma first_calc_h_calc (h : gmap nat hobj) (c0 : gmap string hval) :
  first_calc a_doc a_calcs a0 rest h c0 -> h_calc 0 (HRef a_doc) h = Ok (HRef a0).
Proof.
  intros [(d & Hdoc & Hcalcs) [Hlist _]].
  unfold h_calc, h_getitem_str, h_getitem_int, h_deref.
  rewrite Hdoc. cbn [mbind result_bind]. rewrite Hcalcs. cbn [mbind result_bind].
  rewrite Hlist. cbn [mbind result_bind length]. rewrite norm_index_0. reflexivity.
Qed.

(** Replacing [c0] by a dictionary with the same [calcs_reversed] keeps
    the way to the first calculation, also when that calculation is the
    document itself. *)
Lemma first_calc_update (h : gmap nat hobj) (c0 c1 : gmap string hval) :
  first_calc a_doc a_calcs a0 rest h c0 ->
  c1 !! "calcs_reversed" = c0 !! "calcs_reversed" ->
  first_calc a_doc a_calcs a0 rest (<[a0 := HDict c1]> h) c1.
Proof.
  intros [(d & Hdoc & Hcalcs) [Hlist Hc0]] Hsame.
  assert (Hne : a_calcs <> a0) by congruence.
  split; [|split].
  - destruct (decide (a0 = a_doc)) as [->|Hdoc_ne].
    + exists c1. rewrite lookup_insert_eq. split; [reflexivity|].
      rewrite Hsame. congruence.
    + exists d. by rewrite lookup_insert_ne.
  - by rewrite lookup_insert_ne.
  - apply lookup_insert_eq.
Qed.

End Objects.

Section ObjectsBlock.

Variable G : GridFS.
Variables (a_doc a_calcs a0 : nat) (rest : list hval).

Lemma h_setitem_first_calc (k : string) (y : hval) (h : gmap nat hobj)
    (c0 : gmap string hval) :
  first_calc a_doc a_calcs a0 rest h c0 ->
  (c0 ← h_calc 0 (HRef a_doc) h; h_setitem_str k y c0 h)
  = Ok (<[a0 := HDict (<[k := y]> c0)]> h).
Proof.
  intros Hshape. rewrite (first_calc_h_calc _ _ _ _ _ _ Hshape).
  destruct Hshape as (_ & _ & Hc0).
  cbn [mbind result_bind]. unfold h_setitem_str, h_deref. rewrite Hc0. reflexivity.
Qed.

(** The three outcomes of lines 94-98 when the first calculation is a
    dictionary object holding the field. *)
Lemma h_gridfs_move_run (field ns : string) (w : HWorld) (c0 : gmap string hval) (v : hval) :
  h_task_doc w = HRef a_doc ->
  first_calc a_doc a_calcs a0 rest (heap w) c0 ->
  c0 !! field = Some v ->
  h_gridfs_move G field ns w =
  match h_json_dumps_monty G (heap w) v with
  | Raise e => (Raise e, w)
  | Ok payload =>
      let tr := (h_events w ++ [EvInsertGridfs payload ns])%list in
      match h_insert_gridfs G payload ns (h_events w) with
      | Raise e => (Raise e, {| heap := heap w; h_task_doc := h_task_doc w; h_events := tr |})
      | Ok (gfs_id, compression_type) =>
          (Ok tt,
           {| heap :=
                <[a0 := HDict (delete field
                                 (<[field +:+ "_fs_id" := gfs_id]>
                                    (<[field +:+ "_compression" := compression_type]> c0)))]>
                  (heap w);
              h_task_doc := h_task_doc w;
              h_events := tr |})
      end
  end.
Proof.
  intros Htd Hshape Hfield. destruct w as [h td tr]. cbn [heap h_task_doc h_events] in *.
  subst td. unfold h_gridfs_move.
  rewrite h_bind_run. unfold h_read at 1. cbn [heap h_task_doc h_events].
  assert (Hv : h_calc_item 0 field (HRef a_doc) h = Ok v).
  { unfold h_calc_item. rewrite (first_calc_h_calc _ _ _ _ _ _ Hshape).
    destruct Hshape as (_ & _ & Hc0).
    cbn [mbind result_bind]. unfold h_getitem_str, h_deref. rewrite Hc0.
    cbn [mbind result_bind]. by rewrite Hfield. }
  rewrite Hv. rewrite h_bind_run. cbn [heap h_task_doc h_events].
  destruct (h_json_dumps_monty G h v) as [payload|e]; [|reflexivity].
  rewrite h_bind_run. unfold h_call at 1. cbn [heap h_task_doc h_events].
  destruct (h_insert_gridfs G payload ns tr) as [[gfs_id ct]|e]; [|reflexivity].
  pose proof (first_calc_update _ _ _ _ _ _ (<[field +:+ "_compression" := ct]> c0) Hshape
                (lookup_insert_ne _ _ _ _ (suffix_compression_ne field))) as Hshape1.
  pose proof (first_calc_update _ _ _ _ _ _
                (<[field +:+ "_fs_id" := gfs_id]> (<[field +:+ "_compression" := ct]> c0))
                Hshape1 (lookup_insert_ne _ _ _ _ (suffix_fs_id_ne field))) as Hshape2.
  rewrite h_bind_run. unfold h_update at 1. cbn [heap h_task_doc h_events].
  rewrite (h_setitem_first_calc _ _ _ _ Hshape).
  rewrite h_bind_run. unfold h_update at 1. cbn [heap h_task_doc h_events].
  rewrite (h_setitem_first_calc _ _ _ _ Hshape1).
  unfold h_update. cbn [heap h_task_doc h_events].
  rewrite (first_calc_h_calc _ _ _ _ _ _ Hshape2). cbn [mbind result_bind].
  unfold h_delitem_str, h_deref. rewrite lookup_insert_eq. cbn [mbind result_bind].
  rewrite lookup_insert_ne by (apply append_suffix_ne; discriminate).
  rewrite lookup_insert_ne by (apply append_suffix_ne; discriminate).
  rewrite Hfield. rewrite !insert_insert_eq. reflexivity.
Qed.

Lemma h_offload_enters (enabled : pyval) (field ns : string) (w : HWorld)
    (c0 : gmap string hval) (v : hval) :
  truthy enabled = true ->
  h_task_doc w = HRef a_doc ->
  first_calc a_doc a_calcs a0 rest (heap w) c0 ->
  c0 !! field = Some v ->
  h_offload G enabled field ns w = h_gridfs_move G field ns w.
Proof.
  intros Hen Htd Hshape Hfield. unfold h_offload.
  rewrite h_bind_run. unfold h_read at 1. rewrite Hen, Htd.
  pose proof Hshape as [(d & Hdoc & Hcalcs) [_ Hc0]].
  unfold h_contains_str at 1, h_deref. rewrite Hdoc. cbn [mbind result_bind]. rewrite Hcalcs.
  rewrite h_bind_run. unfold h_read at 1. rewrite Htd.
  rewrite (first_calc_h_calc _ _ _ _ _ _ Hshape). cbn [mbind result_bind].
  unfold h_contains_str, h_deref. rewrite Hc0. cbn [mbind result_bind]. rewrite Hfield.
  reflexivity.
Qed.

End ObjectsBlock.

(** C10 as stated fails: when the list of calculations holds the same
    dictionary object twice, moving [dos] out of [calcs_reversed[0]] takes
    it out of [calcs_reversed[1]] as well, and puts the reference there. *)
Lemma C10_shared_calculation_changes_too :
  let w := h_start shared_calc_heap (HRef 1) in
  let w' := (h_offload demo_gridfs (PBool true) "dos" "dos_fs" w).2 in
  h_calc_item 1 "dos" (h_task_doc w) (heap w) = Ok (HRef 4) /\
  h_calc_item 1 "dos" (h_task_doc w') (heap w') = Raise (KeyError (PStr "dos")) /\
  h_calc_item 1 "dos_fs_id" (h_task_doc w') (heap w') = Ok (HObj "ObjectId" "5f1e").
Proof. repeat split. Qed.

(** C10, amended: on a document whose first calculation is a dictionary
    holding the enabled field, [offload] changes one object only, that
    dictionary, and in it only the field and its two reference keys.  The
    variable [task_doc], the list of calculations and every other object
    are as before; so are the document's own keys unless the document is
    that very dictionary.  A later calculation or another field is
    therefore unchanged as far as it does not refer to the same
    dictionary. *)
Theorem C10_offload_changes_one_object (G : GridFS) (enabled : pyval) (field ns : string)
    (w : HWorld) (a_doc a_calcs a0 : nat) (rest : list hval) (d c0 : gmap string hval)
    (v : hval) :
  truthy enabled = true ->
  h_task_doc w = HRef a_doc ->
  heap w !! a_doc = Some (HDict d) ->
  d !! "calcs_reversed" = Some (HRef a_calcs) ->
  heap w !! a_calcs = Some (HList (HRef a0 :: rest)) ->
  heap w !! a0 = Some (HDict c0) ->
  c0 !! field = Some v ->
  let w' := (h_offload G enabled field ns w).2 in
  h_task_doc w' = h_task_doc w /\
  (forall a, a <> a0 -> heap w' !! a = heap w !! a) /\
  heap w' !! a_calcs = Some (HList (HRef a0 :: rest)) /\
  (a_doc <> a0 -> heap w' !! a_doc = Some (HDict d)) /\
  exists c0',
    heap w' !! a0 = Some (HDict c0') /\
    forall k, k <> field -> k <> field +:+ "_fs_id" -> k <> field +:+ "_compression" ->
              c0' !! k = c0 !! k.
Proof.
  intros Hen Htd Hdoc Hcalcs Hlist Hc0 Hfield.
  assert (Hshape : first_calc a_doc a_calcs a0 rest (heap w) c0) by (split; eauto).
  assert (Hne : a_calcs <> a0) by congruence.
  rewrite (h_offload_enters G a_doc a_calcs a0 rest enabled field ns w c0 v
             Hen Htd Hshape Hfield).
  rewrite (h_gridfs_move_run G a_doc a_calcs a0 rest field ns w c0 v Htd Hshape Hfield).
  assert (Hsame : forall w1 : HWorld,
            heap w1 = heap w -> h_task_doc w1 = h_task_doc w ->
            h_task_doc w1 = h_task_doc w /\
            (forall a, a <> a0 -> heap w1 !! a = heap w !! a) /\
            heap w1 !! a_calcs = Some (HList (HRef a0 :: rest)) /\
            (a_doc <> a0 -> heap w1 !! a_doc = Some (HDict d)) /\
            exists c0',
              heap w1 !! a0 = Some (HDict c0') /\
              forall k, k <> field -> k <> field +:+ "_fs_id" ->
                        k <> field +:+ "_compression" -> c0' !! k = c0 !! k).
  { intros w1 -> ->. repeat split; auto. exists c0. auto. }
  destruct (h_json_dumps_monty G (heap w) v) as [payload|e]; [|by apply Hsame].
  cbv zeta. destruct (h_insert_gridfs G payload ns (h_events w)) as [[gfs_id ct]|e];
    [|by apply Hsame].
  cbn [snd heap h_task_doc]. split; [reflexivity|]. split; [|split; [|split]].
  - intros a Ha. by rewrite lookup_insert_ne.
  - by rewrite lookup_insert_ne.
  - intros Hdoc_ne. by rewrite lookup_insert_ne.
  - eexists. split; [apply lookup_insert_eq|].
    intros k Hk Hfs Hcomp.
    rewrite lookup_delete_ne by congruence.
    rewrite !lookup_insert_ne by congruence. reflexivity.
Qed.

Lemma C10_offload_changes_one_object_witness :
  let w' := (h_offload demo_gridfs (PBool true) "dos" "dos_fs"
               (h_start two_calcs_heap (HRef 1))).2 in
  heap w' !! 5%nat = two_calcs_heap !! 5%nat /\
  heap w' !! 1%nat = two_calcs_heap !! 1%nat /\
  heap w' !! 2%nat = Some (HList [HRef 3; HRef 5]) /\
  exists c0', heap w' !! 3%nat = Some (HDict c0') /\ c0' !! "task" = Some (HStr "static").
Proof.
  destruct (C10_offload_changes_one_object demo_gridfs (PBool true) "dos" "dos_fs"
              (h_start two_calcs_heap (HRef 1)) 1%nat 2%nat 3%nat [HRef 5]
              (<["state" := HStr "successful"]> (<["calcs_reversed" := HRef 2]> ∅))
              (<["dos" := HRef 4]> (<["task" := HStr "static"]> ∅)) (HRef 4)
              eq_refl eq_refl eq_refl eq_refl eq_refl eq_refl eq_refl)
    as (_ & Hothers & Hlist & _ & c0' & Hc0' & Hkeys).
  split; [apply Hothers; discriminate|]. split; [apply Hothers; discriminate|].
  split; [exact Hlist|]. exists c0'. split; [exact Hc0'|].
  rewrite Hkeys by discriminate. reflexivity.
Defined.
